(** * mirep: a Debian/Ubuntu repository mirroring script

    Shallow embedding of [mirep.py] (classes [Downloader], [PackageHandler],
    [FileManager], [RepositoryManage]) and the properties of its index
    parser, download planner, single-file downloader and prune operation.

    Conventions of the embedding.
    - A Python [str] is a [string]; a character stands for the code point of
      the same number, so the text covered is the one whose code points are
      below 256.  Bytes on disk are a [string] as well.
    - A Python [dict] whose insertion order is observed (the package record)
      is an association list in insertion order.
    - The local file system is a set of directories and a finite map from
      file paths to contents; paths are compared literally.
    - Exceptions are values of [exn]; a computation that may raise returns a
      [result], and code that also changes the world is a function from the
      world to a [result] and the new world.
    - The network, the [wget] subprocess, the decompressors and what the
      operating system lets the process delete are not part of the script:
      they are parameters of the embedding. *)

From Stdlib Require Import Ascii String List Bool Arith Lia.
From stdpp Require Import gmap strings list.

Import ListNotations.
Local Open Scope string_scope.
Local Open Scope list_scope.

(** ** Exceptions and results *)

Inductive exn : Type :=
  | TypeError            (* len(None) *)
  | KeyError             (* d[k] with k absent *)
  | ValueError           (* unpacking a list of the wrong length *)
  | UnboundLocalError    (* a loop variable read after a loop that never ran *)
  | LZMAError            (* lzma: invalid stream *)
  | BadGzipFile          (* gzip: invalid stream *)
  | UnicodeDecodeError   (* text layer: invalid encoding *)
  | FileNotFoundError
  | NotADirectoryError
  | IsADirectoryError
  | PermissionError      (* the operating system refuses the operation *)
  | ConnectionError      (* requests: no HTTP response was obtained *)
  | ChunkedEncodingError (* requests: the body stopped arriving *)
  | HTTPError (status : nat).  (* requests: raise_for_status on 4xx, 5xx *)

Inductive result (A : Type) : Type :=
  | Ok (a : A)
  | Raise (e : exn).
Arguments Ok {A} a.
Arguments Raise {A} e.

Definition is_ok {A} (r : result A) : bool :=
  match r with Ok _ => true | Raise _ => false end.

Definition rbind {A B} (r : result A) (k : A -> result B) : result B :=
  match r with
  | Ok a => k a
  | Raise e => Raise e
  end.

(** ** Python string operations *)

Module PyStr.

Definition LF : ascii := "010"%char.
Definition CR : ascii := "013"%char.
Definition nl : string := String LF "".

Definition code (c : ascii) : nat := nat_of_ascii c.

(** [str.isspace] on one character: TAB LF VT FF CR, FS GS RS US, space,
    NEL (133) and NBSP (160). *)
Definition is_space (c : ascii) : bool :=
  let n := code c in
  (((9 <=? n) && (n <=? 13)) || ((28 <=? n) && (n <=? 32))
   || (n =? 133) || (n =? 160))%nat.

(** The line boundaries of [str.splitlines], apart from the pair CR LF:
    LF VT FF CR, FS GS RS and NEL. *)
Definition is_linebreak (c : ascii) : bool :=
  let n := code c in
  (((10 <=? n) && (n <=? 13)) || ((28 <=? n) && (n <=? 30))
   || (n =? 133))%nat.

Definition is_empty (s : string) : bool :=
  match s with EmptyString => true | String _ _ => false end.

Fixpoint rev_acc (s acc : string) : string :=
  match s with
  | EmptyString => acc
  | String c r => rev_acc r (String c acc)
  end.
Definition rev (s : string) : string := rev_acc s "".

Fixpoint lstrip (s : string) : string :=
  match s with
  | EmptyString => ""
  | String c r => if is_space c then lstrip r else s
  end.

(** [s.rstrip()]: a character is dropped when it is white space and
    everything after it was dropped. *)
Fixpoint rstrip (s : string) : string :=
  match s with
  | EmptyString => ""
  | String c r =>
      let r' := rstrip r in
      if is_empty r' && is_space c then "" else String c r'
  end.

(** [s.strip()] *)
Definition strip (s : string) : string := rstrip (lstrip s).

(** [s.rstrip(c)] for a single character [c] *)
Fixpoint rstrip_char (x : ascii) (s : string) : string :=
  match s with
  | EmptyString => ""
  | String c r =>
      let r' := rstrip_char x r in
      if is_empty r' && Ascii.eqb c x then "" else String c r'
  end.

(** [s.splitlines()]: [cur] holds, reversed, the characters of the line
    being read.  No empty line is produced after a final line boundary,
    and CR LF counts as one boundary. *)
Fixpoint splitlines_from (cur : string) (s : string) : list string :=
  match s with
  | EmptyString => if is_empty cur then [] else [rev cur]
  | String c r =>
      if is_linebreak c then
        match r with
        | String c' r' =>
            if Ascii.eqb c CR && Ascii.eqb c' LF
            then rev cur :: splitlines_from "" r'
            else rev cur :: splitlines_from "" r
        | EmptyString => [rev cur]
        end
      else splitlines_from (String c cur) r
  end.
Definition splitlines (s : string) : list string := splitlines_from "" s.

Fixpoint drop (n : nat) (s : string) : string :=
  match n, s with
  | O, _ => s
  | S n', String _ r => drop n' r
  | S _, EmptyString => ""
  end.

(** [s.startswith(p)] *)
Definition startswith (p s : string) : bool := String.prefix p s.

(** [s.endswith(p)] *)
Definition endswith (p s : string) : bool :=
  String.prefix (rev p) (rev s).

(** [sub in s] *)
Fixpoint contains (sub s : string) : bool :=
  startswith sub s ||
  match s with
  | EmptyString => false
  | String _ r => contains sub r
  end.

(** The text before and after the first occurrence of [sep] *)
Fixpoint partition (sep s : string) : option (string * string) :=
  if startswith sep s then Some ("", drop (String.length sep) s)
  else match s with
       | EmptyString => None
       | String c r =>
           match partition sep r with
           | Some (a, b) => Some (String c a, b)
           | None => None
           end
       end.

(** [s.split(sep, 1)] for a non-empty [sep] *)
Definition split1 (sep s : string) : list string :=
  match partition sep s with
  | Some (a, b) => [a; b]
  | None => [s]
  end.

(** [a, b = xs] *)
Definition unpack2 (xs : list string) : result (string * string) :=
  match xs with
  | [a; b] => Ok (a, b)
  | _ => Raise ValueError
  end.

(** [s.lower()] on one character: A-Z, and the capital letters of the
    Latin-1 supplement (192-222 except the multiplication sign 215). *)
Definition lower_char (c : ascii) : ascii :=
  let n := code c in
  if (((65 <=? n) && (n <=? 90))
      || ((192 <=? n) && (n <=? 222) && negb (n =? 215)))%nat
  then ascii_of_nat (n + 32) else c.

Fixpoint lower (s : string) : string :=
  match s with
  | EmptyString => ""
  | String c r => String (lower_char c) (lower r)
  end.

(** Truth value of a string: [if s:] *)
Definition truthy (s : string) : bool := negb (is_empty s).

(** How an f-string renders an optional value: [None] prints as the text
    None. *)
Definition fmt (o : option string) : string :=
  match o with Some s => s | None => "None" end.

(** The lines a text file yields when it is iterated ([for line in file]):
    each line keeps its LF, the last one may have none.  [cur] holds,
    reversed, the characters of the line being read. *)
Fixpoint file_lines_from (cur : string) (s : string) : list string :=
  match s with
  | EmptyString => if is_empty cur then [] else [rev cur]
  | String c r =>
      if Ascii.eqb c LF then rev (String c cur) :: file_lines_from "" r
      else file_lines_from (String c cur) r
  end.
Definition file_lines (s : string) : list string := file_lines_from "" s.

End PyStr.

(** ** Insertion-ordered dictionaries *)

Module PyDict.

Definition dict : Type := list (string * string).

(** [d.get(k)] *)
Fixpoint get (k : string) (d : dict) : option string :=
  match d with
  | [] => None
  | (k', v) :: r => if String.eqb k k' then Some v else get k r
  end.

(** [d[k]] *)
Definition getitem (k : string) (d : dict) : result string :=
  match get k d with Some v => Ok v | None => Raise KeyError end.

(** [d[k] = v]: an existing key keeps its place, a new key goes last. *)
Fixpoint setitem (k v : string) (d : dict) : dict :=
  match d with
  | [] => [(k, v)]
  | (k', v') :: r =>
      if String.eqb k k' then (k', v) :: r else (k', v') :: setitem k v r
  end.

Definition keys (d : dict) : list string := map fst d.

(** [next(reversed(d), None)] *)
Definition last_key (d : dict) : option string := last (keys d).

(** Truth value of a dictionary: [if d:] *)
Definition truthy (d : dict) : bool :=
  match d with [] => false | _ :: _ => true end.

End PyDict.

(** ** The operating system: paths and the local file system *)

Module OS.
Import PyStr.

Definition sep : ascii := "/"%char.

(** [(p[:i], p[i:])] for [i = p.rfind('/') + 1] *)
Fixpoint split_last (p : string) : string * string :=
  match p with
  | EmptyString => ("", "")
  | String c r =>
      let '(h, t) := split_last r in
      if truthy h then (String c h, t)
      else if Ascii.eqb c sep then (String c "", t)
      else ("", String c r)
  end.

(** [head == '/' * len(head)] *)
Definition all_slashes (s : string) : bool := is_empty (rstrip_char sep s).

(** [posixpath.dirname] *)
Definition dirname (p : string) : string :=
  let head := fst (split_last p) in
  if truthy head && negb (all_slashes head) then rstrip_char sep head
  else head.

(** [posixpath.basename] *)
Definition basename (p : string) : string := snd (split_last p).

(** [posixpath.join] of two components *)
Definition join (a b : string) : string :=
  if startswith "/" b then b
  else if is_empty a || endswith "/" a then a +:+ b
  else a +:+ "/" +:+ b.

(** The local file system *)
Record FS : Type := mk_fs {
  dirs : gset string;
  files : gmap string string
}.

Definition isdir (fs : FS) (p : string) : bool := bool_decide (p ∈ dirs fs).

(** [os.path.isfile] *)
Definition isfile (fs : FS) (p : string) : bool :=
  bool_decide (is_Some (files fs !! p)).

(** [os.path.exists] *)
Definition path_exists (fs : FS) (p : string) : bool :=
  isdir fs p || isfile fs p.

(** A directory path without its trailing slashes *)
Definition norm_dir (p : string) : string :=
  if all_slashes p then p else rstrip_char sep p.

(** The path and the directories above it, nearest first *)
Fixpoint ancestors_upto (n : nat) (p : string) : list string :=
  match n with
  | O => []
  | S n' =>
      if is_empty p then []
      else p :: (if String.eqb (dirname p) p then []
                 else ancestors_upto n' (dirname p))
  end.
Definition ancestors (p : string) : list string :=
  ancestors_upto (S (String.length p)) p.

(** [os.makedirs(folder, exist_ok=True)]: the empty path is refused, and
    so is a path that has a regular file on its way. *)
Definition makedirs (folder : string) (fs : FS) : result FS :=
  if is_empty folder then Raise FileNotFoundError
  else if existsb (isfile fs) (ancestors folder) then Raise NotADirectoryError
  else Ok (mk_fs (dirs fs ∪ list_to_set (ancestors folder)) (files fs)).

(** The last component of the path names a directory whatever the disk
    holds: the path ends with a slash or with a dot component. *)
Definition names_directory (p : string) : bool :=
  is_empty (basename p) || String.eqb (basename p) "."
  || String.eqb (basename p) "..".

(** [open(p, 'wb')] followed by the writes and the close: the path must
    not name a directory and the directory that holds it must exist (the
    empty directory name is the working directory). *)
Definition write_file (p body : string) (fs : FS) : result FS :=
  if is_empty p then Raise FileNotFoundError
  else if isdir fs p then Raise IsADirectoryError
  else
    let target := if is_empty (basename p) then dirname p else p in
    let parent := dirname target in
    if is_empty parent || isdir fs parent then
      if names_directory p then Raise IsADirectoryError
      else Ok (mk_fs (dirs fs) (<[p := body]> (files fs)))
    else if isfile fs parent then Raise NotADirectoryError
    else Raise FileNotFoundError.

(** Reading a whole file *)
Definition read_file (p : string) (fs : FS) : result string :=
  match files fs !! p with
  | Some b => Ok b
  | None => if isdir fs p then Raise IsADirectoryError
            else Raise FileNotFoundError
  end.

Definition all_paths (fs : FS) : list string :=
  (map_to_list (files fs)).*1 ++ elements (dirs fs).

(** [os.listdir]: the names directly under a directory.  Python leaves
    the order unspecified; here it is the order of [all_paths]. *)
Definition listdir (folder : string) (fs : FS) : result (list string) :=
  let d := norm_dir folder in
  if isdir fs d then
    Ok (map basename
          (filter (fun p => String.eqb (dirname p) d && truthy (basename p) = true)
                  (all_paths fs)))
  else if isfile fs d then Raise NotADirectoryError
  else Raise FileNotFoundError.

(** The files [os.walk(top)] reaches, each as [os.path.join(root, file)] *)
Definition walk_files (top : string) (fs : FS) : list string :=
  let pre := if endswith "/" top then top else top +:+ "/" in
  if isdir fs (norm_dir top)
  then filter (fun p => startswith pre p = true) (map_to_list (files fs)).*1
  else [].

(** [os.remove]; [permitted p] tells whether the operating system lets
    the process delete the file [p]. *)
Definition remove (permitted : string -> bool) (p : string) (fs : FS)
  : result FS :=
  match files fs !! p with
  | Some _ => if permitted p
              then Ok (mk_fs (dirs fs) (delete p (files fs)))
              else Raise PermissionError
  | None => if isdir fs p then Raise IsADirectoryError
            else Raise FileNotFoundError
  end.

(** [shutil.rmtree] *)
Definition rmtree (p : string) (fs : FS) : result FS :=
  let d := norm_dir p in
  let under (q : string) : Prop := startswith (d +:+ "/") q = true in
  if isdir fs d then
    Ok (mk_fs (filter (fun q => q ≠ d ∧ ¬ under q) (dirs fs))
              (filter (fun kv => ¬ under kv.1) (files fs)))
  else if isfile fs d then Raise NotADirectoryError
  else Raise FileNotFoundError.

End OS.

(** ** The world the script acts on *)

Inductive level : Type := Debug | Info | Error.

(** Messages of [logging] and [print], by kind: the text of an exception is
    not part of the embedding. *)
Inductive message : Type :=
  | CreatedDirectory (folder : string)
  | AlreadyExistsSkipping (file_name : string)
  | DownloadedSuccessfully (file_name : string)
  | FailedToDownload (status : nat)
  | AnErrorOccurred
  | DownloadCompleted (path : string)
  | FileDoesNotExist (path : string)
  | ExtractedDataFrom (file_path : string)
  | ListingFailed
  | FilesToErase (n : nat)
  | Deleting (file_path : string)
  | FileNotFound (file_path : string)
  | PermissionDenied (file_path : string)
  | ErrorDeleting (file_path : string)
  | OperationCancelled.

Inductive event : Type :=
  | ENet (url : string)                    (* requests.get(url) *)
  | ESync (prefix reject url : string)     (* the wget subprocess *)
  | ELog (l : level) (m : message)         (* logging.debug / info / error *)
  | EPrint (m : message).                  (* print *)

Definition is_net (e : event) : bool :=
  match e with ENet _ => true | _ => false end.
Definition is_sync (e : event) : bool :=
  match e with ESync _ _ _ => true | _ => false end.
Definition is_log_error (e : event) : bool :=
  match e with ELog Error _ => true | _ => false end.

(** A call [download_file(path, full_path, overwrite)] handed to the
    executor *)
Record task : Type := mk_task {
  t_path : string;
  t_full_path : string;
  t_overwrite : bool
}.

(** The file system, the fields of the [Downloader] object, the list
    [futures] of [mirror_repository] and what was observable from outside,
    oldest first. *)
Record World : Type := mk_world {
  fs : OS.FS;
  downloaded_files : list string;
  downloaded_count : nat;
  skipped_count : nat;
  futures : list task;
  trace : list event
}.

Definition set_fs (f : OS.FS) (w : World) : World :=
  mk_world f (downloaded_files w) (downloaded_count w) (skipped_count w)
           (futures w) (trace w).
Definition set_downloaded_files (l : list string) (w : World) : World :=
  mk_world (fs w) l (downloaded_count w) (skipped_count w)
           (futures w) (trace w).
Definition set_downloaded_count (n : nat) (w : World) : World :=
  mk_world (fs w) (downloaded_files w) n (skipped_count w)
           (futures w) (trace w).
Definition set_skipped_count (n : nat) (w : World) : World :=
  mk_world (fs w) (downloaded_files w) (downloaded_count w) n
           (futures w) (trace w).
Definition set_futures (l : list task) (w : World) : World :=
  mk_world (fs w) (downloaded_files w) (downloaded_count w) (skipped_count w)
           l (trace w).
Definition add_event (e : event) (w : World) : World :=
  mk_world (fs w) (downloaded_files w) (downloaded_count w) (skipped_count w)
           (futures w) (trace w ++ [e]).

(** Computations: they may raise, and what they did before raising stays *)
Definition M (A : Type) : Type := World -> result A * World.

Definition ret {A} (a : A) : M A := fun w => (Ok a, w).
Definition raise {A} (e : exn) : M A := fun w => (Raise e, w).
Definition bind {A B} (c : M A) (k : A -> M B) : M B :=
  fun w => match c w with
           | (Ok a, w') => k a w'
           | (Raise e, w') => (Raise e, w')
           end.
Definition lift {A} (r : result A) : M A := fun w => (r, w).
Definition get_world : M World := fun w => (Ok w, w).
Definition modify (f : World -> World) : M unit := fun w => (Ok tt, f w).
Definition emit (e : event) : M unit := modify (add_event e).

(** [try: c except E: h]: [h e] is [None] when the clause does not match *)
Definition try_except {A} (c : M A) (h : exn -> option (M A)) : M A :=
  fun w => match c w with
           | (Ok a, w') => (Ok a, w')
           | (Raise e, w') =>
               match h e with
               | Some k => k w'
               | None => (Raise e, w')
               end
           end.

Declare Scope M_scope.
Delimit Scope M_scope with M.
Notation "x <- c ;; k" := (bind c (fun x => k))
  (at level 100, c at next level, right associativity) : M_scope.
Notation "c ;; k" := (bind c (fun _ => k))
  (at level 100, right associativity) : M_scope.
Local Open Scope M_scope.

(** [for x in xs: body x] *)
Fixpoint for_each {A} (xs : list A) (body : A -> M unit) : M unit :=
  match xs with
  | [] => ret tt
  | x :: rest => body x ;; for_each rest body
  end.

(** A file-system operation that may raise *)
Definition fs_op (op : OS.FS -> result OS.FS) : M unit :=
  fun w => match op (fs w) with
           | Ok f => (Ok tt, set_fs f w)
           | Raise e => (Raise e, w)
           end.

(** ** What the script does not contain *)

(** What a request obtains.  [Response] is an answer whose body arrives
    whole; the two other answers are those on which the statements after
    [raise_for_status] raise. *)
Inductive http_result : Type :=
  | NoResponse                            (* connection refused, timeout, ... *)
  | Response (status : nat) (body : string)
  | BadLength (status : nat)              (* content-length is not a number *)
  | Truncated (status : nat) (received : string).
                                          (* the body stops after [received] *)

Definition status_code (response : http_result) : nat :=
  match response with
  | NoResponse => 0
  | Response status _ | BadLength status | Truncated status _ => status
  end.

Record Env : Type := mk_env {
(** lzma, gzip and the text layer: [None] when the bytes are not valid *)
lzma_decode : string -> option string;
gzip_decode : string -> option string;
text_decode : string -> option string;
(** what [requests.get(url, stream=True)] obtains *)
http_get : string -> http_result;
(** what [wget -r -np -nH -P prefix --reject pattern url] leaves on disk,
    and its return code *)
wget : string -> string -> string -> OS.FS -> nat * OS.FS;
(** whether the operating system lets the process delete a file *)
may_remove : string -> bool
}.

(** The command-line arguments the two operations read *)
Record Args : Type := mk_args {
  proto : string;
  url : string;
  inpath : string;
  distributions : list string;
  components : list string;
  architectures : list string;
  rootpath : string;
  threads : nat
}.

(** ** Downloader *)

Module Downloader.
Import PyStr.
Section WithEnv.
Variable env : Env.
Variable args : Args.

(** [Downloader._add_downloaded_files_from_directory] *)
Definition _add_downloaded_files_from_directory (path : string) : M unit :=
  w <- get_world ;;
  modify (set_downloaded_files
            (downloaded_files w
             ++ OS.walk_files (rootpath args +:+ "/" +:+ path) (fs w))).

(** [path.split('/')[0]] *)
Definition first_component (path : string) : string :=
  match partition "/" path with
  | Some (a, _) => a
  | None => path
  end.

(** [Downloader.download_directory]: [subprocess.run(..., check=True)]
    raises on a return code other than 0, and the handler tells 8 from
    the rest. *)
Definition download_directory (path : string) : M unit :=
  let parsed_url := first_component path in
  let prefix := rootpath args +:+ "/" +:+ parsed_url in
  let source := proto args +:+ "://" +:+ path in
  emit (ESync prefix "index.html*" source) ;;
  w <- get_world ;;
  let '(code, fs') := wget env prefix "index.html*" source (fs w) in
  modify (set_fs fs') ;;
  if Nat.eqb code 0 then
    emit (ELog Debug (DownloadCompleted path)) ;;
    _add_downloaded_files_from_directory path
  else if Nat.eqb code 8 then emit (ELog Debug (FileDoesNotExist path))
  else emit (ELog Error AnErrorOccurred).

(** [requests.get(path, stream=True)]: the answer, once its headers are
    there *)
Definition requests_get (path : string) : M http_result :=
  emit (ENet path) ;;
  match http_get env path with
  | NoResponse => raise ConnectionError
  | response => ret response
  end.

(** [response.raise_for_status()] *)
Definition raise_for_status (status : nat) : M unit :=
  if (400 <=? status)%nat && (status <? 600)%nat
  then raise (HTTPError status) else ret tt.

(** [int(response.headers.get('content-length', 0))] *)
Definition content_length (response : http_result) : M unit :=
  match response with
  | BadLength _ => raise ValueError
  | _ => ret tt
  end.

(** [with open(full_path, 'wb') as file: for chunk in
    response.iter_content(...): file.write(chunk)]: the file is created or
    emptied when it is opened and holds what was received when the loop
    ends or the stream breaks. *)
Definition stream_to_file (response : http_result) (full_path : string)
  : M unit :=
  match response with
  | Response _ body => fs_op (OS.write_file full_path body)
  | Truncated _ received =>
      fs_op (OS.write_file full_path received) ;;
      raise ChunkedEncodingError
  | NoResponse | BadLength _ => ret tt
  end.

(** [Downloader.download_file], its first statements: the directory of
    the destination is created when [os.path.exists] does not find it. *)
Definition ensure_folder (full_path : string) : M unit :=
  let folder := OS.dirname full_path in
  w <- get_world ;;
  if negb (OS.path_exists (fs w) folder) then
    fs_op (OS.makedirs folder) ;;
    emit (ELog Debug (CreatedDirectory folder))
  else ret tt.

(** [Downloader.download_file], the rest: the skip of a destination that
    exists, else the request, the reading of the length and the copy of
    the body to the destination; of what these raise, [HTTPError] alone is
    caught. *)
Definition fetch_unless_present (path full_path : string) (overwrite : bool)
  : M unit :=
  let file_name := OS.basename full_path in
  w <- get_world ;;
  if OS.path_exists (fs w) full_path && negb overwrite then
    emit (ELog Debug (AlreadyExistsSkipping file_name)) ;;
    modify (fun w => set_skipped_count (skipped_count w + 1) w)
  else
    try_except
      (response <- requests_get path ;;
       raise_for_status (status_code response) ;;
       content_length response ;;
       stream_to_file response full_path ;;
       emit (ELog Debug (DownloadedSuccessfully file_name)) ;;
       modify (fun w => set_downloaded_files
                          (downloaded_files w ++ [full_path]) w) ;;
       modify (fun w => set_downloaded_count (downloaded_count w + 1) w))
      (fun e =>
         match e with
         | HTTPError status =>
             Some (if Nat.eqb status 404
                   then emit (ELog Error (FailedToDownload status))
                   else emit (ELog Error AnErrorOccurred))
         | _ => None
         end).

(** [Downloader.download_file] *)
Definition download_file (path full_path : string) (overwrite : bool)
  : M unit :=
  ensure_folder full_path ;;
  fetch_unless_present path full_path overwrite.

Definition get_downloaded_files : M (list string) :=
  w <- get_world ;; ret (downloaded_files w).
Definition get_downloaded_count : M nat :=
  w <- get_world ;; ret (downloaded_count w).
Definition get_skipped_count : M nat :=
  w <- get_world ;; ret (skipped_count w).

End WithEnv.
End Downloader.

(** ** PackageHandler: the index parser and the index files *)

Module PackageHandler.
Import PyStr.

Definition record : Type := PyDict.dict.

(** The two variables the loop of [parse_packages_data] updates *)
Record pstate : Type := mk_pstate {
  packages : list record;
  current_package : record
}.

(** Body of the loop [for line in lines] *)
Definition parse_line (s : pstate) (line0 : string) : result pstate :=
  let line := strip line0 in
  if negb (truthy line) then
    if PyDict.truthy (current_package s)
    then Ok (mk_pstate (packages s ++ [current_package s]) [])
    else Ok s
  else if contains ": " line then
    rbind (unpack2 (split1 ": " line)) (fun kv =>
      Ok (mk_pstate (packages s)
                    (PyDict.setitem (fst kv) (snd kv) (current_package s))))
  else
    match PyDict.last_key (current_package s) with
    | Some last_key =>
        if truthy last_key then
          rbind (PyDict.getitem last_key (current_package s)) (fun v =>
            Ok (mk_pstate (packages s)
                  (PyDict.setitem last_key (v +:+ " " +:+ line)
                                  (current_package s))))
        else Ok s
    | None => Ok s
    end.

Fixpoint parse_loop (s : pstate) (lines : list string) : result pstate :=
  match lines with
  | [] => Ok s
  | line :: rest => rbind (parse_line s line) (fun s' => parse_loop s' rest)
  end.

(** What follows the loop: the last record, when there is one *)
Definition flush (s : pstate) : list record :=
  if PyDict.truthy (current_package s)
  then packages s ++ [current_package s]
  else packages s.

Definition parse_lines (lines : list string) : result (list record) :=
  rbind (parse_loop (mk_pstate [] []) lines) (fun s => Ok (flush s)).

(** [PackageHandler.parse_packages_data] *)
Definition parse_packages_data (data : string) : result (list record) :=
  parse_lines (splitlines data).

Section WithEnv.
Variable env : Env.

(** [PackageHandler.extract_file]: the suffix of the name selects the
    decoder; invalid bytes make the read raise. *)
Definition extract_file (file_path : string) : M string :=
  w <- get_world ;;
  bytes <- lift (OS.read_file file_path (fs w)) ;;
  data <- (if endswith ".xz" file_path then
             match lzma_decode env bytes with
             | Some t => ret t
             | None => raise LZMAError
             end
           else if endswith ".gz" file_path then
             match gzip_decode env bytes with
             | Some t => ret t
             | None => raise BadGzipFile
             end
           else
             match text_decode env bytes with
             | Some t => ret t
             | None => raise UnicodeDecodeError
             end) ;;
  emit (EPrint (ExtractedDataFrom file_path)) ;;
  ret data.

(** [PackageHandler.parse_packages_file]: the same loop as
    [parse_packages_data], over the lines of the file opened as text. *)
Definition parse_packages_file (file_path : string) : M (list record) :=
  w <- get_world ;;
  bytes <- lift (OS.read_file file_path (fs w)) ;;
  match text_decode env bytes with
  | Some text => lift (parse_lines (file_lines text))
  | None => raise UnicodeDecodeError
  end.

Definition is_packages_file (file_path : string) : bool :=
  endswith "Packages" file_path || endswith "Packages.xz" file_path
  || endswith "Packages.gz" file_path.

(** [PackageHandler.find_and_extract_packages]: the first file of the
    list with one of the three names is read; when there is none the
    loop ends and the function returns [None]. *)
Fixpoint find_and_extract_packages (file_list : list string)
  : M (option (list record)) :=
  match file_list with
  | [] => ret None
  | file_path :: rest =>
      if is_packages_file file_path then
        data <- extract_file file_path ;;
        pkgs <- lift (parse_packages_data data) ;;
        ret (Some pkgs)
      else find_and_extract_packages rest
  end.

End WithEnv.
End PackageHandler.

(** ** FileManager *)

Module FileManager.
Import PyStr.

(** [FileManager.list_files_recursive] *)
Definition list_files_recursive (folder_path : string) : M (list string) :=
  w <- get_world ;; ret (OS.walk_files folder_path (fs w)).

(** [FileManager.list_files_in_folder]: any exception of the listing is
    printed and answered by the empty list. *)
Definition list_files_in_folder (folder_path : string) : M (list string) :=
  w <- get_world ;;
  match OS.listdir folder_path (fs w) with
  | Ok names =>
      ret (filter (fun p => OS.isfile (fs w) p = true)
                  (map (OS.join folder_path) names))
  | Raise _ => emit (EPrint ListingFailed) ;; ret []
  end.

End FileManager.

(** ** RepositoryManage *)

Module RepositoryManage.
Import PyStr PackageHandler.
Section WithEnv.
Variable env : Env.
Variable args : Args.

(** [len(x)] and [enumerate(x, start=1)] on a value that may be [None] *)
Definition py_len {A} (x : option (list A)) : result nat :=
  match x with Some l => Ok (length l) | None => Raise TypeError end.
Definition py_iter {A} (x : option (list A)) : result (list A) :=
  match x with Some l => Ok l | None => Raise TypeError end.

(** [executor.submit(self.downloader.download_file, path, full, ow)] *)
Definition submit (path full_path : string) (overwrite : bool) : M unit :=
  modify (fun w => set_futures
                     (futures w ++ [mk_task path full_path overwrite]) w).

Definition dists_path (distribution : string) : string :=
  url args +:+ "/" +:+ inpath args +:+ "/dists/" +:+ distribution.

(** [f"{rootpath}/{url}/{inpath}/dists/{distribution}/{component}/binary-{arch}/"] *)
Definition save_path (distribution component arch : string) : string :=
  rootpath args +:+ "/" +:+ dists_path distribution +:+ "/" +:+ component
  +:+ "/binary-" +:+ arch +:+ "/".

(** [f"{proto}://{url}/{inpath}/{package.get('Filename')}"] *)
Definition downloadlink (package : record) : string :=
  proto args +:+ "://" +:+ url args +:+ "/" +:+ inpath args +:+ "/"
  +:+ fmt (PyDict.get "Filename" package).

(** [f"{rootpath}/{url}/{inpath}/{package.get('Filename')}"] *)
Definition filesave (package : record) : string :=
  rootpath args +:+ "/" +:+ url args +:+ "/" +:+ inpath args +:+ "/"
  +:+ fmt (PyDict.get "Filename" package).

(** Body of [for index, package in enumerate(packages_info, start=1)] in
    [mirror_repository]; [link_list] is the list the loop appends to.  The
    [logging.debug] calls of the body only read the record and are left
    out. *)
Fixpoint mirror_packages (packages_info : list record)
                         (link_list : list string) : M (list string) :=
  match packages_info with
  | [] => ret link_list
  | package :: rest =>
      submit (downloadlink package) (filesave package) false ;;
      mirror_packages rest (link_list ++ [filesave package])
  end.

(** Body of [for arch in self.args.architectures], first half: the
    contents index is submitted and the two directories are synchronised. *)
Definition mirror_arch_sync (distribution component arch : string)
  : M unit :=
  let common_path := dists_path distribution +:+ "/" +:+ component
                     +:+ "/Contents-" +:+ arch +:+ ".gz" in
  submit (proto args +:+ "://" +:+ common_path)
         (rootpath args +:+ "/" +:+ common_path) true ;;
  Downloader.download_directory env args
    (dists_path distribution +:+ "/" +:+ component
     +:+ "/binary-" +:+ arch +:+ "/") ;;
  Downloader.download_directory env args
    (dists_path distribution +:+ "/" +:+ component
     +:+ "/debian-installer/binary-" +:+ arch +:+ "/").

(** Second half: the package index found on disk is read and one task
    per record is submitted.  [len(packages_info)] is evaluated for the
    debug message that precedes the loop. *)
Definition mirror_arch_packages (distribution component : string)
                                (link_list : list string) (arch : string)
  : M (list string) :=
  pack_files <- FileManager.list_files_in_folder
                  (save_path distribution component arch) ;;
  packages_info <- find_and_extract_packages env pack_files ;;
  _ <- lift (py_len packages_info) ;;
  pkgs <- lift (py_iter packages_info) ;;
  mirror_packages pkgs link_list.

Definition mirror_arch (distribution component : string)
                       (link_list : list string) (arch : string)
  : M (list string) :=
  mirror_arch_sync distribution component arch ;;
  mirror_arch_packages distribution component link_list arch.

(** A loop that carries a list along *)
Fixpoint fold_loop {A} (body : list string -> A -> M (list string))
                   (xs : list A) (acc : list string) : M (list string) :=
  match xs with
  | [] => ret acc
  | x :: rest => acc' <- body acc x ;; fold_loop body rest acc'
  end.

(** Body of [for component in self.args.components] *)
Definition mirror_component (distribution : string)
                            (link_list : list string) (component : string)
  : M (list string) :=
  Downloader.download_directory env args
    (dists_path distribution +:+ "/" +:+ component +:+ "/i18n/") ;;
  Downloader.download_directory env args
    (dists_path distribution +:+ "/" +:+ component +:+ "/source/") ;;
  fold_loop (mirror_arch distribution component)
            (architectures args) link_list.

(** Body of [for distribution in self.args.distributions] *)
Definition mirror_distribution (link_list : list string)
                               (distribution : string) : M (list string) :=
  for_each ["InRelease"; "Release"; "Release.gpg"] (fun cert =>
    let common_path := dists_path distribution +:+ "/" +:+ cert in
    submit (proto args +:+ "://" +:+ common_path)
           (rootpath args +:+ "/" +:+ common_path) true) ;;
  fold_loop (mirror_component distribution) (components args) link_list.

(** The body of the [with ThreadPoolExecutor(...)] block: the tasks it
    submits are gathered in [futures]. *)
Definition mirror_plan : M (list string) :=
  fold_loop mirror_distribution (distributions args) [].

(** One task of the pool: it runs to its end and its exception, if any,
    is kept in its future. *)
Definition run_task (t : task) (w : World) : result unit * World :=
  Downloader.download_file env (t_path t) (t_full_path t) (t_overwrite t) w.

(** The pool: every submitted task is run, one after the other in the
    order of submission, once the planning is over.  This is one schedule
    of the pool; the source updates the counters from the workers without
    a lock, so that with several workers an update can be lost. *)
Fixpoint run_pool (ts : list task) (w : World)
  : list (result unit) * World :=
  match ts with
  | [] => ([], w)
  | t :: rest =>
      let '(r, w1) := run_task t w in
      let '(rs, w2) := run_pool rest w1 in
      (r :: rs, w2)
  end.

(** [for future in as_completed(futures): future.result()] *)
Fixpoint collect (results : list (result unit)) : result unit :=
  match results with
  | [] => Ok tt
  | Ok _ :: rest => collect rest
  | Raise e :: _ => Raise e
  end.

(** [RepositoryManage.mirror_repository].  Leaving the [with] block waits
    for the pool, also when the block raised; the value returned is the
    final [link_list], which the source only logs.  The listing of the
    root taken before the run is only logged as well and is left out. *)
Definition mirror_repository : M (list string) :=
  fun w0 =>
    let '(planned, w1) := mirror_plan (set_futures [] w0) in
    let '(results, w2) := run_pool (futures w1) w1 in
    match planned with
    | Raise e => (Raise e, w2)
    | Ok link_list =>
        match collect results with
        | Raise e => (Raise e, w2)
        | Ok _ => (Ok (link_list ++ downloaded_files w2), w2)
        end
    end.

(** Body of [for index, package in enumerate(packages_info, start=1)] in
    [remove_repository] *)
Fixpoint remove_packages (packages_info : list record)
                         (file_list : list string) : list string :=
  match packages_info with
  | [] => file_list
  | package :: rest =>
      remove_packages rest (file_list ++ [filesave package])
  end.

(** Body of [for arch in self.args.architectures] in
    [remove_repository] *)
Definition remove_arch (distribution component : string)
                       (file_list : list string) (arch : string)
  : M (list string) :=
  pack_files <- FileManager.list_files_in_folder
                  (save_path distribution component arch) ;;
  packages_info <- find_and_extract_packages env pack_files ;;
  _ <- lift (py_len packages_info) ;;
  pkgs <- lift (py_iter packages_info) ;;
  ret (remove_packages pkgs file_list).

Definition remove_component (distribution : string)
                            (file_list : list string) (component : string)
  : M (list string) :=
  fold_loop (remove_arch distribution component)
            (architectures args) file_list.

Definition remove_distribution (file_list : list string)
                               (distribution : string) : M (list string) :=
  fold_loop (remove_component distribution) (components args) file_list.

(** The first half of [remove_repository]: the list of files to erase *)
Definition remove_plan : M (list string) :=
  fold_loop remove_distribution (distributions args) [].

(** The [try] around [os.remove] in [remove_repository]: every exception
    is caught and printed. *)
Definition remove_one (file_path : string) : M unit :=
  emit (ELog Info (Deleting file_path)) ;;
  try_except (fs_op (OS.remove (may_remove env) file_path))
    (fun e =>
       Some (match e with
             | FileNotFoundError => emit (EPrint (FileNotFound file_path))
             | PermissionError => emit (EPrint (PermissionDenied file_path))
             | _ => emit (EPrint (ErrorDeleting file_path))
             end)).

(** [user_input = input().strip().lower()], then anything other than
    y and n becomes n. *)
Definition answer (line : string) : string :=
  let user_input := lower (strip line) in
  if negb (String.eqb user_input "y" || String.eqb user_input "n")
  then "n" else user_input.

(** [RepositoryManage.remove_repository]; [line] is what [input()]
    reads.  After the loops [distribution] is the last distribution, or
    unbound when there is none. *)
Definition remove_repository (line : string) : M unit :=
  file_list <- remove_plan ;;
  emit (EPrint (FilesToErase (length file_list))) ;;
  if String.eqb (answer line) "y" then
    for_each file_list remove_one ;;
    match last (distributions args) with
    | Some distribution =>
        fs_op (OS.rmtree (rootpath args +:+ "/" +:+ dists_path distribution))
    | None => raise UnboundLocalError
    end
  else emit (EPrint OperationCancelled).

End WithEnv.
End RepositoryManage.

(** ** Vocabulary of the properties *)

(** Blank-line-delimited blocks of an index text *)
Module Blocks.
Import PyStr PackageHandler.

(** A line is blank when nothing is left of it after [strip] *)
Definition blank (line : string) : bool := negb (truthy (strip line)).

(** A line of the form key, colon, space, value *)
Definition has_separator (line : string) : bool :=
  contains ": " (strip line).

(** The maximal runs of lines that are not blank; [cur] is the run being
    read. *)
Fixpoint blocks_from (cur lines : list string) : list (list string) :=
  match lines with
  | [] => match cur with [] => [] | _ :: _ => [cur] end
  | line :: rest =>
      if blank line then
        match cur with
        | [] => blocks_from [] rest
        | _ :: _ => cur :: blocks_from [] rest
        end
      else blocks_from (cur ++ [line]) rest
  end.
Definition blocks (lines : list string) : list (list string) :=
  blocks_from [] lines.

Definition has_key_line (block : list string) : bool :=
  existsb has_separator block.

(** The record the parser builds from the lines of one block *)
Definition block_record (block : list string) : result record :=
  rbind (parse_loop (mk_pstate [] []) block)
        (fun s => Ok (current_package s)).

End Blocks.

(** The directory of a destination exists, or [os.makedirs] can create it *)
Definition parent_ready (f : OS.FS) (full_path : string) : bool :=
  OS.path_exists f (OS.dirname full_path)
  || is_ok (OS.makedirs (OS.dirname full_path) f).

(** The directory of a destination is a directory already, or nothing has
    its name and [os.makedirs] can create it *)
Definition parent_directory_ready (f : OS.FS) (full_path : string) : bool :=
  OS.isdir f (OS.dirname full_path)
  || negb (OS.path_exists f (OS.dirname full_path))
     && is_ok (OS.makedirs (OS.dirname full_path) f).

(** A disk on which whatever exists lies in a directory that exists, unless
    its path has no directory part *)
Definition fs_consistent (f : OS.FS) : Prop :=
  forall p,
    OS.path_exists f p = true ->
    PyStr.is_empty (OS.dirname p) = false ->
    OS.isdir f (OS.dirname p) = true.

(** The events a computation added to the trace *)
Definition added (w w' : World) (evs : list event) : Prop :=
  trace w' = trace w ++ evs.

(** Events that are neither a request nor a run of [wget] *)
Definition quiet (e : event) : bool := negb (is_net e) && negb (is_sync e).

(** A step that leaves the disk, the pool and the counters alone and adds
    only quiet events *)
Definition quiet_step (w w' : World) : Prop :=
  fs w' = fs w
  /\ futures w' = futures w
  /\ downloaded_files w' = downloaded_files w
  /\ downloaded_count w' = downloaded_count w
  /\ skipped_count w' = skipped_count w
  /\ exists evs, added w w' evs /\ Forall (fun e => quiet e = true) evs.

(** A computation whose result is a function of the disk alone and whose
    steps are quiet *)
Definition reads_only {A} (c : M A) : Prop :=
  forall w1 w2,
    fs w1 = fs w2 -> fst (c w1) = fst (c w2) /\ quiet_step w1 (snd (c w1)).

(** The destinations of the tasks submitted with overwrite=False: the
    package files *)
Definition package_destinations (w : World) : list string :=
  map t_full_path (List.filter (fun t => negb (t_overwrite t)) (futures w)).

(** The task [mirror_repository] submits for one record *)
Definition package_task (args : Args) (package : PackageHandler.record) : task :=
  mk_task (RepositoryManage.downloadlink args package)
          (RepositoryManage.filesave args package) false.

(** What the two operations read of the index directory [folder] on the
    disk [f]: the records of the first index file of its listing *)
Definition read_index (env : Env) (folder : string)
  : M (option (list PackageHandler.record)) :=
  pack_files <- FileManager.list_files_in_folder folder ;;
  PackageHandler.find_and_extract_packages env pack_files.
Definition index_reading (env : Env) (f : OS.FS) (folder : string)
  : result (option (list PackageHandler.record)) :=
  fst (read_index env folder (mk_world f [] 0 0 [] [])).

(** Two disks with the same local index files, as far as the selectors go *)
Definition same_indexes (env : Env) (args : Args) (f1 f2 : OS.FS) : Prop :=
  forall d c a,
    In d (distributions args) -> In c (components args) ->
    In a (architectures args) ->
    index_reading env f1 (RepositoryManage.save_path args d c a)
    = index_reading env f2 (RepositoryManage.save_path args d c a).









(** The ways the second part of [download_file] can end *)
Inductive fetch_outcome (env : Env) (path full_path : string)
          (overwrite : bool) (w : World) : result unit -> World -> Prop :=
  | Skipped :
      OS.path_exists (fs w) full_path && negb overwrite = true ->
      fetch_outcome env path full_path overwrite w (Ok tt)
        (set_skipped_count (skipped_count w + 1)
           (add_event
              (ELog Debug (AlreadyExistsSkipping (OS.basename full_path))) w))
  | Unreachable :
      OS.path_exists (fs w) full_path && negb overwrite = false ->
      http_get env path = NoResponse ->
      fetch_outcome env path full_path overwrite w (Raise ConnectionError)
        (add_event (ENet path) w)
  | Refused status body :
      OS.path_exists (fs w) full_path && negb overwrite = false ->
      http_get env path = Response status body ->
      (400 <=? status)%nat && (status <? 600)%nat = true ->
      fetch_outcome env path full_path overwrite w (Ok tt)
        (add_event (ELog Error (if Nat.eqb status 404
                                then FailedToDownload status
                                else AnErrorOccurred))
           (add_event (ENet path) w))
  | Stored status body f' :
      OS.path_exists (fs w) full_path && negb overwrite = false ->
      http_get env path = Response status body ->
      (400 <=? status)%nat && (status <? 600)%nat = false ->
      OS.write_file full_path body (fs w) = Ok f' ->
      fetch_outcome env path full_path overwrite w (Ok tt)
        (set_downloaded_count (downloaded_count w + 1)
           (set_downloaded_files (downloaded_files w ++ [full_path])
              (add_event
                 (ELog Debug (DownloadedSuccessfully (OS.basename full_path)))
                 (set_fs f' (add_event (ENet path) w)))))
  | NotWritable status body e :
      OS.path_exists (fs w) full_path && negb overwrite = false ->
      http_get env path = Response status body ->
      (400 <=? status)%nat && (status <? 600)%nat = false ->
      OS.write_file full_path body (fs w) = Raise e ->
      (forall s, e <> HTTPError s) ->
      fetch_outcome env path full_path overwrite w (Raise e)
        (add_event (ENet path) w)
  | RefusedBadLength status :
      OS.path_exists (fs w) full_path && negb overwrite = false ->
      http_get env path = BadLength status ->
      (400 <=? status)%nat && (status <? 600)%nat = true ->
      fetch_outcome env path full_path overwrite w (Ok tt)
        (add_event (ELog Error (if Nat.eqb status 404
                                then FailedToDownload status
                                else AnErrorOccurred))
           (add_event (ENet path) w))
  | RefusedTruncated status received :
      OS.path_exists (fs w) full_path && negb overwrite = false ->
      http_get env path = Truncated status received ->
      (400 <=? status)%nat && (status <? 600)%nat = true ->
      fetch_outcome env path full_path overwrite w (Ok tt)
        (add_event (ELog Error (if Nat.eqb status 404
                                then FailedToDownload status
                                else AnErrorOccurred))
           (add_event (ENet path) w))
  | Malformed status :
      OS.path_exists (fs w) full_path && negb overwrite = false ->
      http_get env path = BadLength status ->
      (400 <=? status)%nat && (status <? 600)%nat = false ->
      fetch_outcome env path full_path overwrite w (Raise ValueError)
        (add_event (ENet path) w)
  | Broken status received f' :
      OS.path_exists (fs w) full_path && negb overwrite = false ->
      http_get env path = Truncated status received ->
      (400 <=? status)%nat && (status <? 600)%nat = false ->
      OS.write_file full_path received (fs w) = Ok f' ->
      fetch_outcome env path full_path overwrite w
        (Raise ChunkedEncodingError)
        (set_fs f' (add_event (ENet path) w))
  | BrokenNotWritable status received e :
      OS.path_exists (fs w) full_path && negb overwrite = false ->
      http_get env path = Truncated status received ->
      (400 <=? status)%nat && (status <? 600)%nat = false ->
      OS.write_file full_path received (fs w) = Raise e ->
      (forall s, e <> HTTPError s) ->
      fetch_outcome env path full_path overwrite w (Raise e)
        (add_event (ENet path) w).

(** A text in which LF is the only line boundary of [splitlines] *)
Fixpoint only_lf (s : string) : bool :=
  match s with
  | EmptyString => true
  | String c r =>
      (negb (PyStr.is_linebreak c) || Ascii.eqb c PyStr.LF) && only_lf r
  end.

(** The tasks submitted with overwrite=True: release files and contents
    indexes *)
Definition forced_tasks (w : World) : list task :=
  List.filter t_overwrite (futures w).

(** The runs of [wget] so far *)
Definition sync_events (w : World) : list event :=
  List.filter is_sync (trace w).

(** The tree [remove_repository] hands to [shutil.rmtree] *)
Definition prune_root (args : Args) (distribution : string) : string :=
  rootpath args +:+ "/" +:+ RepositoryManage.dists_path args distribution.

(** [q] lies below the directory [d] *)
Definition below (d q : string) : bool := PyStr.startswith (d +:+ "/") q.

(** A computation that, when it ends normally, has submitted [forced]
    tasks with overwrite=True and has run [wget] [syncs] times *)
Definition plans {A} (c : M A) (forced syncs : nat) : Prop :=
  forall w x w',
    c w = (Ok x, w') ->
    length (forced_tasks w') = length (forced_tasks w) + forced
    /\ length (sync_events w') = length (sync_events w) + syncs.

(** ** Concrete situations *)

Module Scenario.
Import PyStr.


(** An index whose second record has no [Filename] field *)
Definition index_text : string :=
  "Package: a" +:+ nl +:+ "Filename: pool/a.deb" +:+ nl +:+ nl
  +:+ "Package: b" +:+ nl.

(** Stand-ins for the decompressors: a stream is taken as valid when it
    starts with the magic bytes of its format, and the text is what
    follows them. *)
Definition xz_magic : string :=
  String "253" (String "055" (String "122" (String "088"
    (String "090" (String "000" ""))))).
Definition gz_magic : string := String "031" (String "139" "").
Definition after_magic (magic bytes : string) : option string :=
  if startswith magic bytes then Some (drop (String.length magic) bytes)
  else None.

(** A server that has the package files, answers 404 for the release
    files and cannot be reached for anything else; a [wget] that finds
    nothing to fetch; an operating system that lets every file be
    deleted. *)
Definition env0 : Env :=
  mk_env (after_magic xz_magic) (after_magic gz_magic) Some
         (fun u => if endswith ".deb" u then Response 200 "DEB"
                   else if contains "Release" u then Response 404 ""
                   else NoResponse)
         (fun _ _ _ f => (8, f))
         (fun _ => true).

(** The same with a server that answers every request *)
Definition env_up : Env :=
  mk_env (after_magic xz_magic) (after_magic gz_magic) Some
         (fun u => if endswith ".deb" u then Response 200 "DEB"
                   else if contains "Release" u then Response 404 ""
                   else Response 500 "")
         (fun _ _ _ f => (8, f))
         (fun _ => true).


(** The server of [env_up] with an operating system that does not let the
    index of amd64 be deleted *)
Definition env_locked : Env :=
  mk_env (after_magic xz_magic) (after_magic gz_magic) Some
         (http_get env_up) (wget env_up)
         (fun p => negb (String.eqb p
            "/r/h/debian/dists/stable/main/binary-amd64/Packages")).

Definition args0 : Args :=
  mk_args "http" "h" "debian" ["stable"] ["main"] ["amd64"] "/r" 5.

Definition args2 : Args :=
  mk_args "http" "h" "debian" ["stable"] ["main"] ["amd64"; "i386"] "/r" 5.

Definition world_of (f : OS.FS) : World := mk_world f [] 0 0 [] [].

Definition tree : gset string :=
  {[ "/"; "/r"; "/r/h"; "/r/h/debian"; "/r/h/debian/dists";
     "/r/h/debian/dists/stable"; "/r/h/debian/dists/stable/main";
     "/r/h/debian/dists/stable/main/binary-amd64";
     "/r/h/debian/dists/stable/main/binary-i386" ]}.

(** Nothing mirrored yet *)
Definition fs_empty : OS.FS := OS.mk_fs ∅ ∅.

(** A plain index for amd64 *)
Definition fs_plain : OS.FS :=
  OS.mk_fs tree
    {[ "/r/h/debian/dists/stable/main/binary-amd64/Packages" := index_text ]}.

(** A damaged compressed index for amd64, a plain one for i386 *)
Definition fs_damaged : OS.FS :=
  OS.mk_fs tree
    {[ "/r/h/debian/dists/stable/main/binary-amd64/Packages.xz" := "garbage";
       "/r/h/debian/dists/stable/main/binary-i386/Packages" := index_text ]}.



(** The directories of amd64 with no file in them *)
Definition fs_bare : OS.FS := OS.mk_fs tree ∅.

(** A mirror that already holds one package file *)
Definition fs_mirrored : OS.FS :=
  OS.mk_fs (tree ∪ {[ "/r/h/debian/pool" ]})
    {[ "/r/h/debian/dists/stable/main/binary-amd64/Packages" := index_text;
       "/r/h/debian/pool/a.deb" := "OLD" ]}.

(** A mirror of two distributions, with the index of stable only *)
Definition args_two_dists : Args :=
  mk_args "http" "h" "debian" ["oldstable"; "stable"] ["main"] ["amd64"]
          "/r" 5.

Definition fs_two_dists : OS.FS :=
  OS.mk_fs (tree ∪ {[ "/r/h/debian/pool";
                      "/r/h/debian/dists/oldstable";
                      "/r/h/debian/dists/oldstable/main";
                      "/r/h/debian/dists/oldstable/main/binary-amd64" ]})
    {[ "/r/h/debian/dists/stable/main/binary-amd64/Packages" := index_text;
       "/r/h/debian/dists/oldstable/main/binary-amd64/Packages" := index_text;
       "/r/h/debian/pool/a.deb" := "OLD" ]}.

End Scenario.

(** ** The index parser *)

Section ParserFacts.
Import PyStr PyDict PackageHandler Blocks.
Local Arguments startswith : simpl never.
Local Arguments strip : simpl never.

Lemma contains_partition sep s :
  contains sep s = true -> exists a b, partition sep s = Some (a, b).
Proof.
  induction s as [|c r IH]; simpl.
  - destruct (startswith sep ""); [eauto | intros; discriminate].
  - destruct (startswith sep (String c r)); [eauto |].
    simpl. intros H. destruct (IH H) as (a & b & ->). eauto.
Qed.

Lemma last_key_get (d : dict) k :
  last_key d = Some k -> exists v, get k d = Some v.
Proof.
  unfold last_key, keys.
  induction d as [|[k' v'] r IH]; simpl; [discriminate |].
  destruct r as [|p r'].
  - simpl. intros [= ->]. rewrite String.eqb_refl. eauto.
  - intros H. destruct (String.eqb k k'); [eauto |].
    apply IH. exact H.
Qed.

Lemma setitem_truthy k v d : PyDict.truthy (setitem k v d) = true.
Proof. destruct d as [|[k' v'] r]; simpl; [reflexivity |]. destruct (String.eqb k k'); reflexivity. Qed.

Lemma keys_setitem_present k v d :
  In k (keys d) -> keys (setitem k v d) = keys d.
Proof.
  induction d as [|[k' v'] r IH]; simpl; [tauto |].
  intros H. destruct (String.eqb k k') eqn:E; [reflexivity |].
  simpl. f_equal. apply IH. destruct H as [H | H]; [| exact H].
  subst k'. rewrite String.eqb_refl in E. discriminate.
Qed.

Lemma keys_setitem_absent k v d :
  ~ In k (keys d) -> keys (setitem k v d) = keys d ++ [k].
Proof.
  induction d as [|[k' v'] r IH]; simpl; [reflexivity |].
  intros H. destruct (String.eqb k k') eqn:E.
  - apply String.eqb_eq in E. subst. tauto.
  - simpl. f_equal. apply IH. tauto.
Qed.

Lemma get_setitem_same k v d : get k (setitem k v d) = Some v.
Proof.
  induction d as [|[k' v'] r IH]; simpl.
  - rewrite String.eqb_refl. reflexivity.
  - destruct (String.eqb k k') eqn:E; simpl; rewrite E; [reflexivity | exact IH].
Qed.

Lemma get_setitem_other k k' v d :
  k' <> k -> get k' (setitem k v d) = get k' d.
Proof.
  intros Hne. induction d as [|[k0 v0] r IH]; simpl.
  - destruct (String.eqb k' k) eqn:E; [apply String.eqb_eq in E; tauto | reflexivity].
  - destruct (String.eqb k k0) eqn:E; simpl.
    + apply String.eqb_eq in E. subst k0.
      destruct (String.eqb k' k) eqn:E'; [apply String.eqb_eq in E'; tauto | reflexivity].
    + rewrite IH. reflexivity.
Qed.

(** What the loop body does with a line that is not blank *)
Lemma parse_line_nonblank (c : dict) line :
  blank line = false ->
  exists c',
    (forall pk', parse_line (mk_pstate pk' c) line = Ok (mk_pstate pk' c'))
    /\ PyDict.truthy c' = PyDict.truthy c || has_separator line.
Proof.
  unfold blank, has_separator, parse_line. intros Hb.
  apply negb_false_iff in Hb. rewrite Hb. simpl.
  destruct (contains ": " (strip line)) eqn:Hc.
  - destruct (contains_partition _ _ Hc) as (a & b & Hp).
    unfold split1. rewrite Hp. simpl.
    eexists. split; [reflexivity |].
    rewrite setitem_truthy, orb_true_r. reflexivity.
  - rewrite orb_false_r.
    destruct (last_key c) as [k|] eqn:Hl.
    + destruct (PyStr.truthy k).
      * destruct (last_key_get _ _ Hl) as [v Hv].
        unfold getitem. rewrite Hv. simpl.
        eexists. split; [reflexivity |].
        rewrite setitem_truthy. destruct c; [discriminate | reflexivity].
      * eexists. split; [reflexivity | reflexivity].
    + eexists. split; [reflexivity | reflexivity].
Qed.

Lemma parse_line_blank (pk : list record) (c : dict) line :
  blank line = true ->
  parse_line (mk_pstate pk c) line =
    Ok (if PyDict.truthy c then mk_pstate (pk ++ [c]) [] else mk_pstate pk c).
Proof.
  unfold blank, parse_line. intros ->. simpl. destruct (PyDict.truthy c); reflexivity.
Qed.

Lemma parse_loop_app s l1 l2 :
  parse_loop s (l1 ++ l2) = rbind (parse_loop s l1) (fun s' => parse_loop s' l2).
Proof.
  revert s. induction l1 as [|x r IH]; intros s; simpl; [reflexivity |].
  destruct (parse_line s x); simpl; [apply IH | reflexivity].
Qed.

(** The parser never raises *)
Lemma parse_line_total s line : exists s', parse_line s line = Ok s'.
Proof.
  destruct s as [pk c]. destruct (blank line) eqn:Hb.
  - rewrite parse_line_blank by exact Hb. eauto.
  - destruct (parse_line_nonblank c line Hb) as (c' & H & _). rewrite H. eauto.
Qed.

Lemma parse_loop_total lines : forall s, exists s', parse_loop s lines = Ok s'.
Proof.
  induction lines as [|l r IH]; intros s; simpl; [eauto |].
  destruct (parse_line_total s l) as [s1 ->]. simpl. apply IH.
Qed.

Lemma parse_lines_total lines : exists recs, parse_lines lines = Ok recs.
Proof.
  unfold parse_lines. destruct (parse_loop_total lines (mk_pstate [] [])) as [s ->].
  simpl. eauto.
Qed.

(** Reading a whole index, block by block *)
Lemma parse_loop_blocks lines : forall cur pk c,
  parse_loop (mk_pstate [] []) cur = Ok (mk_pstate [] c) ->
  PyDict.truthy c = has_key_line cur ->
  exists recs,
    rbind (parse_loop (mk_pstate pk c) lines) (fun s => Ok (flush s))
      = Ok (pk ++ recs)
    /\ Forall2 (fun b r => block_record b = Ok r)
               (List.filter has_key_line (blocks_from cur lines)) recs.
Proof.
  induction lines as [|l rest IH]; intros cur pk c Hcur Hkey.
  - cbn [parse_loop blocks_from rbind]. unfold flush.
    cbn [current_package packages].
    destruct cur as [|x cur'].
    + cbn in Hcur. injection Hcur as <-. cbn.
      exists []. rewrite app_nil_r. split; [reflexivity | constructor].
    + cbn [List.filter]. rewrite <- Hkey.
      destruct (PyDict.truthy c).
      * exists [c]. split; [reflexivity |].
        constructor; [| constructor]. unfold block_record. rewrite Hcur. reflexivity.
      * exists []. rewrite app_nil_r. split; [reflexivity | constructor].
  - cbn [parse_loop blocks_from]. destruct (blank l) eqn:Hb.
    + rewrite parse_line_blank by exact Hb. cbn [rbind].
      destruct cur as [|x cur'].
      * cbn in Hcur. injection Hcur as <-. cbn [PyDict.truthy].
        apply (IH [] pk []); reflexivity.
      * cbn [List.filter]. rewrite <- Hkey.
        destruct c as [|e c0]; [| set (c := e :: c0) in *];
          cbn [PyDict.truthy]; cbv iota.
        2: { destruct (IH [] (pk ++ [c]) [] eq_refl eq_refl) as (recs & Hr & Hf).
           exists (c :: recs). rewrite <- app_assoc in Hr. split; [exact Hr |].
           constructor; [| exact Hf]. unfold block_record. rewrite Hcur. reflexivity. }
        apply (IH [] pk []); reflexivity.
    + destruct (parse_line_nonblank c l Hb) as (c' & Hstep & Ht).
      rewrite Hstep. cbn [rbind].
      apply IH.
      * rewrite parse_loop_app, Hcur. cbn [rbind parse_loop]. rewrite Hstep. reflexivity.
      * rewrite Ht, Hkey. unfold has_key_line. rewrite existsb_app. cbn [existsb].
        rewrite orb_false_r. reflexivity.
Qed.

Lemma parse_lines_blocks lines :
  exists recs,
    parse_lines lines = Ok recs
    /\ Forall2 (fun b r => block_record b = Ok r)
               (List.filter has_key_line (blocks lines)) recs.
Proof.
  destruct (parse_loop_blocks lines [] [] [] eq_refl eq_refl) as (recs & H & Hf).
  exists recs. split; [exact H | exact Hf].
Qed.


End ParserFacts.

Section ParserClaims.
Import PyStr PyDict PackageHandler Blocks.
Local Arguments startswith : simpl never.
Local Arguments strip : simpl never.

Lemma partition_contains sep s a b :
  partition sep s = Some (a, b) -> contains sep s = true.
Proof.
  revert a b. induction s as [|c r IH]; intros a b; simpl.
  - destruct (startswith sep ""); [reflexivity | discriminate].
  - destruct (startswith sep (String c r)); [reflexivity |].
    destruct (partition sep r) as [[a' b']|] eqn:E; [| discriminate].
    intros _. simpl. eapply IH. reflexivity.
Qed.



(** C6 as stated fails.  Lines are classified after [strip]: the line
    [A: ] has the separator as it stands and has none once stripped, so
    that it does not overwrite the value of the key [A], which is there
    already, but is appended to it as a continuation line. *)
Lemma line_ending_with_separator_is_continuation :
  let s := mk_pstate [] [("A", "1")] in
  contains ": " "A: " = true
  /\ blank "A: " = false
  /\ strip "A: " = "A:"
  /\ has_separator "A: " = false
  /\ parse_line s "A: " = Ok (mk_pstate [] [("A", "1 A:")])
  /\ parse_line s "A: " <> Ok (mk_pstate [] [("A", "")])
  /\ parse_packages_data ("A: 1" +:+ nl +:+ "A: ") = Ok [[("A", "1 A:")]].
Proof.
  cbv zeta. repeat split; try (vm_compute; reflexivity).
  vm_compute. discriminate.
Qed.

(** The key is tested for truth, not for presence: after a line that sets
    the empty key, a continuation line is not appended to the value of
    that key; the record stays as it was. *)
Lemma continuation_after_empty_key :
  let s := mk_pstate [] [("", "x")] in
  blank "foo" = false
  /\ has_separator "foo" = false
  /\ last_key (current_package s) = Some ""
  /\ parse_line s "foo" = Ok s
  /\ parse_line s "foo" <> Ok (mk_pstate [] [("", "x foo")])
  /\ parse_packages_data (": x" +:+ nl +:+ "foo") = Ok [[("", "x")]].
Proof.
  cbv zeta. repeat split; try (vm_compute; reflexivity).
  vm_compute. discriminate.
Qed.

(** C6, amended.  Lines are classified after [strip]: a key line is a line
    that is not blank and whose stripped text has the separator, its key
    the text before the first separator; a continuation line is a line that
    is not blank and whose stripped text has no separator.  Within one
    record whose keys are not empty, a key line sets its key: a key already
    present keeps its place in the insertion order and gets the new value,
    a new key is added last, and the other values stay.  A continuation
    line appends a space and the stripped line to the value of the most
    recently inserted key.  A continuation line is discarded when the
    record has no key yet.  The parser raises on no text. *)
Theorem parse_line_within_record :
  (forall s line k v,
     blank line = false ->
     partition ": " (strip line) = Some (k, v) ->
     exists c',
       parse_line s line = Ok (mk_pstate (packages s) c')
       /\ (In k (keys (current_package s)) ->
           keys c' = keys (current_package s))
       /\ (~ In k (keys (current_package s)) ->
           keys c' = keys (current_package s) ++ [k])
       /\ get k c' = Some v
       /\ (forall k', k' <> k -> get k' c' = get k' (current_package s)))
  /\ (forall s line k v,
        blank line = false ->
        has_separator line = false ->
        last_key (current_package s) = Some k ->
        k <> "" ->
        get k (current_package s) = Some v ->
        exists c',
          parse_line s line = Ok (mk_pstate (packages s) c')
          /\ keys c' = keys (current_package s)
          /\ get k c' = Some (v +:+ " " +:+ strip line)
          /\ (forall k', k' <> k -> get k' c' = get k' (current_package s)))
  /\ (forall s line,
        blank line = false ->
        has_separator line = false ->
        current_package s = [] ->
        parse_line s line = Ok s)
  /\ (forall data, exists recs, parse_packages_data data = Ok recs).
Proof.
  split; [| split; [| split]].
  - intros [pk c] line k v Hb Hp. unfold blank in Hb.
    apply negb_false_iff in Hb.
    exists (setitem k v c). unfold parse_line. rewrite Hb.
    rewrite (partition_contains _ _ _ _ Hp).
    unfold split1. rewrite Hp. cbn.
    split; [reflexivity |].
    split; [apply keys_setitem_present |].
    split; [apply keys_setitem_absent |].
    split; [apply get_setitem_same |].
    intros k' Hne. apply get_setitem_other, Hne.
  - intros [pk c] line k v Hb Hs Hl Hk Hv. unfold blank in Hb.
    apply negb_false_iff in Hb. unfold has_separator in Hs.
    cbn [current_package packages] in *.
    exists (setitem k (v +:+ " " +:+ strip line) c).
    unfold parse_line. rewrite Hb, Hs. cbn [negb current_package packages].
    rewrite Hl. destruct k as [|a k0]; [congruence |]. cbn [PyStr.truthy is_empty negb].
    unfold getitem. rewrite Hv. cbn [rbind].
    split; [reflexivity |].
    split.
    { apply keys_setitem_present.
      unfold last_key in Hl. apply last_Some in Hl. destruct Hl as [l' ->].
      apply in_or_app. right. left. reflexivity. }
    split; [apply get_setitem_same |].
    intros k' Hne. apply get_setitem_other, Hne.
  - intros [pk c] line Hb Hs Hc. unfold blank in Hb.
    apply negb_false_iff in Hb. unfold has_separator in Hs.
    cbn [current_package packages] in *.
    unfold parse_line. rewrite Hb, Hs. cbn [negb current_package packages].
    rewrite Hc. reflexivity.
  - intros data. apply parse_lines_total.
Qed.

Lemma parse_line_within_record_witness :
  let s := mk_pstate [] [("Package", "foo"); ("Version", "1.0")] in
  (blank "Package: bar" = false
   /\ partition ": " (strip "Package: bar") = Some ("Package", "bar")
   /\ exists c',
        parse_line s "Package: bar" = Ok (mk_pstate [] c')
        /\ (In "Package" (keys (current_package s)) ->
            keys c' = ["Package"; "Version"])
        /\ get "Package" c' = Some "bar")
  /\ (blank " more" = false
      /\ has_separator " more" = false
      /\ exists c',
           parse_line s " more" = Ok (mk_pstate [] c')
           /\ get "Version" c' = Some "1.0 more")
  /\ (blank "orphan" = false
      /\ has_separator "orphan" = false
      /\ parse_line (mk_pstate [] []) "orphan" = Ok (mk_pstate [] []))
  /\ (blank "Version: " = false
      /\ has_separator "Version: " = false
      /\ exists c',
           parse_line s "Version: " = Ok (mk_pstate [] c')
           /\ get "Version" c' = Some "1.0 Version:").
Proof.
  cbv zeta.
  split; [| split; [| split]].
  - split; [vm_compute; reflexivity |]. split; [vm_compute; reflexivity |].
    destruct (proj1 parse_line_within_record
                (mk_pstate [] [("Package", "foo"); ("Version", "1.0")])
                "Package: bar" "Package" "bar")
      as (c' & H1 & H2 & _ & H4 & _);
      [vm_compute; reflexivity | vm_compute; reflexivity |].
    exists c'. split; [exact H1 |]. split; [exact H2 | exact H4].
  - split; [vm_compute; reflexivity |]. split; [vm_compute; reflexivity |].
    destruct (proj1 (proj2 parse_line_within_record)
                (mk_pstate [] [("Package", "foo"); ("Version", "1.0")])
                " more" "Version" "1.0")
      as (c' & H1 & _ & H3 & _);
      [vm_compute; reflexivity | vm_compute; reflexivity
       | vm_compute; reflexivity | discriminate | vm_compute; reflexivity |].
    exists c'. split; [exact H1 | exact H3].
  - split; [vm_compute; reflexivity |]. split; [vm_compute; reflexivity |].
    apply (proj1 (proj2 (proj2 parse_line_within_record))
             (mk_pstate [] []) "orphan");
      [vm_compute; reflexivity | vm_compute; reflexivity | reflexivity].
  - split; [vm_compute; reflexivity |]. split; [vm_compute; reflexivity |].
    destruct (proj1 (proj2 parse_line_within_record)
                (mk_pstate [] [("Package", "foo"); ("Version", "1.0")])
                "Version: " "Version" "1.0")
      as (c' & H1 & _ & H3 & _);
      [vm_compute; reflexivity | vm_compute; reflexivity
       | vm_compute; reflexivity | discriminate | vm_compute; reflexivity |].
    exists c'. split; [exact H1 | exact H3].
Defined.
End ParserClaims.

(** ** The single-file download *)

Section DownloaderFacts.
Import PyStr.

Lemma ancestors_head folder :
  PyStr.is_empty folder = false -> exists l, OS.ancestors folder = folder :: l.
Proof.
  intros H. unfold OS.ancestors. cbn [OS.ancestors_upto]. rewrite H. eauto.
Qed.

Lemma makedirs_ok folder f f' :
  OS.makedirs folder f = Ok f' ->
  OS.isdir f' folder = true
  /\ OS.files f' = OS.files f
  /\ OS.dirs f ⊆ OS.dirs f'.
Proof.
  unfold OS.makedirs.
  destruct (PyStr.is_empty folder) eqn:He; [discriminate |].
  destruct (existsb _ _); [discriminate |].
  intros [= <-]. cbn [OS.dirs OS.files].
  destruct (ancestors_head folder He) as [l ->].
  split; [| split; [reflexivity | set_solver]].
  unfold OS.isdir. cbn [OS.dirs]. apply bool_decide_eq_true. set_solver.
Qed.

(** A path with a slash has a directory part. *)
Lemma split_last_head p :
  contains "/" p = true -> PyStr.truthy (fst (OS.split_last p)) = true.
Proof.
  induction p as [|c r IH]; [intros H; discriminate H |].
  cbn [contains OS.split_last]. intros H.
  destruct (OS.split_last r) as [h t]. cbn [fst] in IH.
  destruct (PyStr.truthy h) eqn:Hh; [reflexivity |].
  destruct (Ascii.eqb c OS.sep) eqn:Hc; [reflexivity |].
  exfalso. apply orb_true_iff in H. destruct H as [H | H].
  - unfold startswith in H. cbn [String.prefix] in H.
    destruct (ascii_dec "/" c) as [<- | _]; [| discriminate].
    rewrite Ascii.eqb_refl in Hc. discriminate.
  - specialize (IH H). discriminate.
Qed.

Lemma dirname_nonempty p :
  contains "/" p = true -> PyStr.is_empty (OS.dirname p) = false.
Proof.
  intros H. apply split_last_head in H. unfold OS.dirname.
  destruct (OS.split_last p) as [h t]. cbn [fst] in *. rewrite H.
  unfold OS.all_slashes.
  destruct (PyStr.is_empty (rstrip_char OS.sep h)) eqn:He; cbn [negb andb].
  - unfold PyStr.truthy in H. apply negb_true_iff in H. exact H.
  - exact He.
Qed.

Lemma contains_slash_after a b : contains "/" (a +:+ "/" +:+ b) = true.
Proof.
  induction a as [|c r IH].
  - change ("" +:+ "/" +:+ b) with (String "/" b). destruct b; reflexivity.
  - change (String c r +:+ "/" +:+ b) with (String c (r +:+ "/" +:+ b)).
    cbn [contains]. rewrite IH. apply orb_true_r.
Qed.

(** On a consistent disk the directory of an existing destination of the
    form rootpath/... is there, so the call finds it ready. *)
Lemma existing_destination_parent_ready f rootpath rest :
  fs_consistent f ->
  OS.path_exists f (rootpath +:+ "/" +:+ rest) = true ->
  parent_ready f (rootpath +:+ "/" +:+ rest) = true.
Proof.
  intros Hc Hex. unfold parent_ready, OS.path_exists at 1.
  rewrite (Hc _ Hex (dirname_nonempty _ (contains_slash_after rootpath rest))).
  reflexivity.
Qed.

Lemma makedirs_raise_or_ok folder f :
  (exists f', OS.makedirs folder f = Ok f')
  \/ (exists e, OS.makedirs folder f = Raise e).
Proof. destruct (OS.makedirs folder f); eauto. Qed.

Lemma path_exists_mono f f' p :
  OS.dirs f ⊆ OS.dirs f' ->
  (forall q, is_Some (OS.files f !! q) -> is_Some (OS.files f' !! q)) ->
  OS.path_exists f p = true -> OS.path_exists f' p = true.
Proof.
  unfold OS.path_exists, OS.isdir, OS.isfile. intros Hd Hf H.
  apply orb_true_iff in H. apply orb_true_iff.
  destruct H as [H | H]; apply bool_decide_eq_true in H.
  - left. apply bool_decide_eq_true. set_solver.
  - right. apply bool_decide_eq_true. auto.
Qed.

Lemma write_file_ok p b f f' :
  OS.write_file p b f = Ok f' ->
  OS.dirs f' = OS.dirs f /\ OS.files f' = <[p := b]> (OS.files f).
Proof.
  unfold OS.write_file.
  destruct (PyStr.is_empty p); [discriminate |].
  destruct (OS.isdir f p); [discriminate |].
  cbv zeta. destruct (_ || _).
  - destruct (OS.names_directory p); [discriminate |].
    intros [= <-]; split; reflexivity.
  - destruct (OS.isfile f _); discriminate.
Qed.

Variable env : Env.

(** The directory step when the directory is there or can be made *)
Lemma ensure_folder_ready full_path w :
  parent_ready (fs w) full_path = true ->
  exists w1,
    Downloader.ensure_folder full_path w = (Ok tt, w1)
    /\ OS.path_exists (fs w1) (OS.dirname full_path) = true
    /\ OS.files (fs w1) = OS.files (fs w)
    /\ OS.dirs (fs w) ⊆ OS.dirs (fs w1)
    /\ downloaded_files w1 = downloaded_files w
    /\ downloaded_count w1 = downloaded_count w
    /\ skipped_count w1 = skipped_count w
    /\ futures w1 = futures w
    /\ exists pre, added w w1 pre
                   /\ Forall (fun e => is_net e = false) pre
                   /\ Forall (fun e => is_log_error e = false) pre.
Proof.
  unfold parent_ready, Downloader.ensure_folder, bind, get_world.
  destruct (OS.path_exists (fs w) (OS.dirname full_path)) eqn:Hex; cbn.
  - intros _. exists w. unfold ret. repeat split; try reflexivity; try exact Hex.
    exists []. unfold added. rewrite app_nil_r. repeat split; constructor.
  - unfold fs_op. destruct (OS.makedirs (OS.dirname full_path) (fs w)) as [f'|e] eqn:Hm;
      [| discriminate].
    intros _. destruct (makedirs_ok _ _ _ Hm) as (Hd & Hf & Hs).
    eexists. split; [reflexivity |]. cbn.
    split; [unfold OS.path_exists; rewrite Hd; reflexivity |].
    repeat split; try assumption.
    eexists. unfold added. cbn. split; [reflexivity |].
    split; repeat constructor.
Qed.

Lemma ensure_folder_not_ready full_path w :
  parent_ready (fs w) full_path = false ->
  exists e, Downloader.ensure_folder full_path w = (Raise e, w).
Proof.
  unfold parent_ready, Downloader.ensure_folder, bind, get_world.
  destruct (OS.path_exists (fs w) (OS.dirname full_path)) eqn:Hex; cbn;
    [discriminate |].
  unfold fs_op. destruct (OS.makedirs (OS.dirname full_path) (fs w)) as [f'|e];
    [discriminate |].
  intros _. eauto.
Qed.

Lemma write_file_exn p b f e :
  OS.write_file p b f = Raise e -> forall s, e <> HTTPError s.
Proof.
  unfold OS.write_file.
  destruct (PyStr.is_empty p); [intros [= <-]; discriminate |].
  destruct (OS.isdir f p); [intros [= <-]; discriminate |].
  cbv zeta. destruct (_ || _).
  - destruct (OS.names_directory p); [intros [= <-]; discriminate |].
    discriminate.
  - destruct (OS.isfile f _); intros [= <-]; discriminate.
Qed.

Lemma fetch_unless_present_outcome path full_path overwrite w r w' :
  Downloader.fetch_unless_present env path full_path overwrite w = (r, w') ->
  fetch_outcome env path full_path overwrite w r w'.
Proof.
  unfold Downloader.fetch_unless_present, bind at 1, get_world.
  destruct (OS.path_exists (fs w) full_path && negb overwrite) eqn:Hskip.
  - cbn. intros [= <- <-]. apply Skipped. exact Hskip.
  - unfold try_except, Downloader.requests_get, bind, emit, modify.
    destruct (http_get env path) as [|status body|status|status received]
      eqn:Hget.
    + cbn. intros [= <- <-]. apply Unreachable; assumption.
    + unfold ret, Downloader.raise_for_status. cbn [status_code].
      destruct ((400 <=? status)%nat && (status <? 600)%nat) eqn:Hst.
      * unfold raise. destruct (status =? 404)%nat eqn:E404;
          cbn; intros [= <- <-].
        -- generalize (Refused env path full_path overwrite w status body Hskip Hget Hst).
           rewrite E404. exact (fun H => H).
        -- generalize (Refused env path full_path overwrite w status body Hskip Hget Hst).
           rewrite E404. exact (fun H => H).
      * unfold ret, Downloader.content_length, Downloader.stream_to_file, fs_op.
        cbn.
        destruct (OS.write_file full_path body (fs w)) as [f'|e] eqn:Hw.
        -- cbn. intros [= <- <-]. eapply Stored; eassumption.
        -- pose proof (write_file_exn _ _ _ _ Hw) as Hne.
           destruct e; try (cbn; intros [= <- <-]; eapply NotWritable; eassumption).
           exfalso. eapply Hne. reflexivity.
    + unfold ret, Downloader.raise_for_status. cbn [status_code].
      destruct ((400 <=? status)%nat && (status <? 600)%nat) eqn:Hst.
      * unfold raise. destruct (status =? 404)%nat eqn:E404;
          cbn; intros [= <- <-].
        -- generalize (RefusedBadLength env path full_path overwrite w status Hskip Hget Hst).
           rewrite E404. exact (fun H => H).
        -- generalize (RefusedBadLength env path full_path overwrite w status Hskip Hget Hst).
           rewrite E404. exact (fun H => H).
      * unfold ret, Downloader.content_length, raise. cbn.
        intros [= <- <-]. eapply Malformed; eassumption.
    + unfold ret, Downloader.raise_for_status. cbn [status_code].
      destruct ((400 <=? status)%nat && (status <? 600)%nat) eqn:Hst.
      * unfold raise. destruct (status =? 404)%nat eqn:E404;
          cbn; intros [= <- <-].
        -- generalize (RefusedTruncated env path full_path overwrite w status received Hskip Hget Hst).
           rewrite E404. exact (fun H => H).
        -- generalize (RefusedTruncated env path full_path overwrite w status received Hskip Hget Hst).
           rewrite E404. exact (fun H => H).
      * unfold ret, Downloader.content_length, Downloader.stream_to_file, fs_op,
          bind, raise.
        cbn.
        destruct (OS.write_file full_path received (fs w)) as [f'|e] eqn:Hw.
        -- cbn. intros [= <- <-]. eapply Broken; eassumption.
        -- pose proof (write_file_exn _ _ _ _ Hw) as Hne.
           destruct e;
             try (cbn; intros [= <- <-]; eapply BrokenNotWritable; eassumption).
           exfalso. eapply Hne. reflexivity.
Qed.
End DownloaderFacts.

Section DownloaderClaims.
Import PyStr.

Lemma added_trans w w1 w' pre post :
  added w w1 pre -> added w1 w' post -> added w w' (pre ++ post).
Proof. unfold added. intros H1 H2. rewrite H2, H1, app_assoc. reflexivity. Qed.


Lemma added_refl w : added w w [].
Proof. unfold added. rewrite app_nil_r. reflexivity. Qed.

Lemma fetch_outcome_fs env path full_path overwrite w r w' :
  fetch_outcome env path full_path overwrite w r w' ->
  OS.dirs (fs w') = OS.dirs (fs w)
  /\ (forall q, is_Some (OS.files (fs w) !! q) ->
                is_Some (OS.files (fs w') !! q)).
Proof.
  intros H. destruct H; cbn; try (split; [reflexivity | auto]);
    match goal with H : OS.write_file _ _ _ = Ok _ |- _ =>
      destruct (write_file_ok _ _ _ _ H) as [Hd Hf] end;
    (split; [exact Hd |]); intros q Hq; rewrite Hf;
    apply lookup_insert_is_Some'; right; exact Hq.
Qed.

Lemma download_file_split env path full_path overwrite w w1 :
  Downloader.ensure_folder full_path w = (Ok tt, w1) ->
  Downloader.download_file env path full_path overwrite w
  = Downloader.fetch_unless_present env path full_path overwrite w1.
Proof. intros H. unfold Downloader.download_file, bind. rewrite H. reflexivity. Qed.

Lemma download_file_stuck env path full_path overwrite w e :
  Downloader.ensure_folder full_path w = (Raise e, w) ->
  Downloader.download_file env path full_path overwrite w = (Raise e, w).
Proof. intros H. unfold Downloader.download_file, bind. rewrite H. reflexivity. Qed.

(** C3.  A call of [download_file] with overwrite=False whose destination
    is a file on disk (and whose directory is there or can be made) ends
    normally, adds exactly 1 to the skipped count, makes no request, and
    leaves the downloaded count, the list of downloaded files and the
    contents of every file, the destination included, as they were. *)
Theorem download_file_skips_existing env path full_path w content :
  OS.files (fs w) !! full_path = Some content ->
  parent_ready (fs w) full_path = true ->
  exists w' evs,
    Downloader.download_file env path full_path false w = (Ok tt, w')
    /\ skipped_count w' = skipped_count w + 1
    /\ downloaded_count w' = downloaded_count w
    /\ downloaded_files w' = downloaded_files w
    /\ OS.files (fs w') = OS.files (fs w)
    /\ OS.files (fs w') !! full_path = Some content
    /\ added w w' evs
    /\ Forall (fun e => is_net e = false) evs.
Proof.
  intros Hfile Hready.
  destruct (ensure_folder_ready full_path w Hready)
    as (w1 & Hens & _ & Hfiles & _ & Hdf & Hdc & Hsc & _ & pre & Hpre & Hnet & _).
  assert (Hskip : OS.path_exists (fs w1) full_path && negb false = true).
  { unfold OS.path_exists, OS.isfile. rewrite Hfiles, Hfile.
    rewrite (bool_decide_eq_true_2 _ (mk_is_Some _ _ eq_refl)).
    rewrite orb_true_r. reflexivity. }
  rewrite (download_file_split env _ _ _ _ _ Hens).
  destruct (Downloader.fetch_unless_present env path full_path false w1)
    as [r w'] eqn:Hf.
  apply fetch_unless_present_outcome in Hf.
  inversion Hf; subst; try congruence.
  eexists. exists (pre ++ [ELog Debug (AlreadyExistsSkipping (OS.basename full_path))]).
  split; [reflexivity |].
  split; [cbn; rewrite Hsc; reflexivity |].
  split; [cbn; exact Hdc |].
  split; [cbn; exact Hdf |].
  split; [cbn; exact Hfiles |].
  split; [cbn; rewrite Hfiles; exact Hfile |].
  split.
  - unfold added in *. cbn. rewrite Hpre, app_assoc. reflexivity.
  - apply Forall_app. split; [exact Hnet | repeat constructor].
Qed.

Lemma download_file_skips_existing_witness :
  OS.files (fs (Scenario.world_of Scenario.fs_mirrored)) !! "/r/h/debian/pool/a.deb"
    = Some "OLD"
  /\ parent_ready (fs (Scenario.world_of Scenario.fs_mirrored))
                  "/r/h/debian/pool/a.deb" = true
  /\ exists w' evs,
       Downloader.download_file Scenario.env0 "http://h/debian/pool/a.deb"
         "/r/h/debian/pool/a.deb" false (Scenario.world_of Scenario.fs_mirrored)
       = (Ok tt, w')
       /\ skipped_count w' = 0 + 1
       /\ downloaded_count w' = 0
       /\ downloaded_files w' = []
       /\ OS.files (fs w') = OS.files Scenario.fs_mirrored
       /\ OS.files (fs w') !! "/r/h/debian/pool/a.deb" = Some "OLD"
       /\ added (Scenario.world_of Scenario.fs_mirrored) w' evs
       /\ Forall (fun e => is_net e = false) evs.
Proof.
  split; [vm_compute; reflexivity |].
  split; [vm_compute; reflexivity |].
  apply (download_file_skips_existing Scenario.env0 "http://h/debian/pool/a.deb"
           "/r/h/debian/pool/a.deb" (Scenario.world_of Scenario.fs_mirrored) "OLD").
  - vm_compute. reflexivity.
  - vm_compute. reflexivity.
Defined.

Lemma parent_directory_ready_parent_ready f full_path :
  parent_directory_ready f full_path = true -> parent_ready f full_path = true.
Proof.
  unfold parent_directory_ready, parent_ready, OS.path_exists.
  destruct (OS.isdir f (OS.dirname full_path)); [reflexivity |].
  destruct (OS.isfile f (OS.dirname full_path)); [discriminate |].
  cbn. exact (fun H => H).
Qed.

Lemma ensure_folder_directory full_path w w1 :
  parent_directory_ready (fs w) full_path = true ->
  Downloader.ensure_folder full_path w = (Ok tt, w1) ->
  OS.isdir (fs w1) (OS.dirname full_path) = true.
Proof.
  unfold parent_directory_ready, Downloader.ensure_folder, bind, get_world.
  destruct (OS.path_exists (fs w) (OS.dirname full_path)) eqn:Hex; cbn.
  - rewrite ?andb_false_r, ?orb_false_r. intros Hd [= <-]. exact Hd.
  - intros _. unfold fs_op.
    destruct (OS.makedirs (OS.dirname full_path) (fs w)) as [f'|e] eqn:Hm;
      [| discriminate].
    cbn. intros [= <-]. cbn. exact (proj1 (makedirs_ok _ _ _ Hm)).
Qed.

(** C10 as stated fails.  The directory step tests [os.path.exists]: when
    the path of the parent is a regular file nothing is created, the
    request is sent, and no parent directory exists afterwards; and a
    destination without a directory part makes [os.makedirs] raise on the
    empty path, so that no directory exists afterwards either. *)
Lemma parent_path_may_be_a_file :
  let w := Scenario.world_of Scenario.fs_mirrored in
  let full_path := "/r/h/debian/pool/a.deb/x.deb" in
  let run :=
    Downloader.download_file Scenario.env_up "http://h/debian/pool/x.deb"
      full_path false w in
  OS.dirname full_path = "/r/h/debian/pool/a.deb"
  /\ OS.isfile (fs w) (OS.dirname full_path) = true
  /\ fst run = Raise NotADirectoryError
  /\ trace (snd run) = [ENet "http://h/debian/pool/x.deb"]
  /\ OS.isdir (fs (snd run)) (OS.dirname full_path) = false
  /\ Downloader.download_file Scenario.env_up "http://h/x.deb" "x.deb" false
       (Scenario.world_of Scenario.fs_empty)
     = (Raise FileNotFoundError, Scenario.world_of Scenario.fs_empty)
  /\ OS.isdir Scenario.fs_empty (OS.dirname "x.deb") = false.
Proof. vm_compute. repeat split; reflexivity. Qed.

(** C10, amended.  In a call of [download_file] whose destination has a
    parent that is a directory already, or that is missing and can be
    created by [os.makedirs], the parent is dealt with first: the skip test
    and the request run in a world where it is a directory, nothing was
    requested and nothing was counted before, no file was touched, and it
    is still a directory when the call ends, whether the call skipped,
    stored the file, met an HTTP error or raised. *)
Theorem download_file_parent_first env path full_path overwrite w :
  parent_directory_ready (fs w) full_path = true ->
  exists w1 pre,
    Downloader.ensure_folder full_path w = (Ok tt, w1)
    /\ OS.isdir (fs w1) (OS.dirname full_path) = true
    /\ OS.files (fs w1) = OS.files (fs w)
    /\ added w w1 pre
    /\ Forall (fun e => is_net e = false) pre
    /\ skipped_count w1 = skipped_count w
    /\ downloaded_count w1 = downloaded_count w
    /\ Downloader.download_file env path full_path overwrite w
       = Downloader.fetch_unless_present env path full_path overwrite w1
    /\ OS.isdir
         (fs (snd (Downloader.download_file env path full_path overwrite w)))
         (OS.dirname full_path) = true.
Proof.
  intros Hdir.
  pose proof (parent_directory_ready_parent_ready _ _ Hdir) as Hready.
  destruct (ensure_folder_ready full_path w Hready)
    as (w1 & Hens & _ & Hfiles & _ & Hdf & Hdc & Hsc & _ & pre & Hpre & Hnet & _).
  pose proof (ensure_folder_directory _ _ _ Hdir Hens) as Hd1.
  exists w1, pre.
  repeat (split; [assumption |]).
  split; [apply download_file_split; exact Hens |].
  rewrite (download_file_split env _ _ _ _ _ Hens).
  destruct (Downloader.fetch_unless_present env path full_path overwrite w1)
    as [r w'] eqn:Hf.
  apply fetch_unless_present_outcome in Hf.
  destruct (fetch_outcome_fs _ _ _ _ _ _ _ Hf) as [Hd _].
  cbn [snd]. unfold OS.isdir in *. rewrite Hd. exact Hd1.
Qed.
End DownloaderClaims.

(** ** The pool and the run *)

Section PoolClaims.
Import PyStr RepositoryManage.







End PoolClaims.

(** ** The planner and the prune operation *)

Section PlannerFacts.
Import PyStr PackageHandler RepositoryManage.

Lemma quiet_step_refl w : quiet_step w w.
Proof.
  unfold quiet_step. repeat (split; [reflexivity |]).
  exists []. split; [apply added_refl | constructor].
Qed.

Lemma quiet_step_trans w1 w2 w3 :
  quiet_step w1 w2 -> quiet_step w2 w3 -> quiet_step w1 w3.
Proof.
  intros (A1 & A2 & A3 & A4 & A5 & e1 & A6 & A7)
         (B1 & B2 & B3 & B4 & B5 & e2 & B6 & B7).
  unfold quiet_step.
  repeat (split; [congruence |]).
  exists (e1 ++ e2). split; [eapply added_trans; eassumption |].
  apply Forall_app. split; assumption.
Qed.

Lemma quiet_step_event w e : quiet e = true -> quiet_step w (add_event e w).
Proof.
  intros H. unfold quiet_step. cbn. repeat (split; [reflexivity |]).
  exists [e]. split; [reflexivity | repeat constructor; exact H].
Qed.

Lemma reads_only_ret {A} (a : A) : reads_only (ret a).
Proof. intros w1 w2 _. split; [reflexivity | apply quiet_step_refl]. Qed.

Lemma reads_only_lift {A} (r : result A) : reads_only (lift r).
Proof. intros w1 w2 _. split; [reflexivity | apply quiet_step_refl]. Qed.

Lemma reads_only_bind {A B} (c : M A) (k : A -> M B) :
  reads_only c -> (forall a, reads_only (k a)) -> reads_only (bind c k).
Proof.
  intros Hc Hk w1 w2 Hfs. unfold bind.
  destruct (Hc w1 w2 Hfs) as [Hr Hq1].
  destruct (Hc w2 w1 (eq_sym Hfs)) as [_ Hq2].
  destruct (c w1) as [r1 w1'], (c w2) as [r2 w2']. cbn in Hr, Hq1, Hq2.
  subst r2. destruct r1 as [a|e]; [| split; [reflexivity | exact Hq1]].
  assert (Hfs' : fs w1' = fs w2').
  { destruct Hq1 as [-> _], Hq2 as [-> _]. exact Hfs. }
  destruct (Hk a w1' w2' Hfs') as [Hr' Hq'].
  split; [exact Hr' | eapply quiet_step_trans; eassumption].
Qed.

Lemma reads_only_fold_loop {A} (body : list string -> A -> M (list string)) xs :
  (forall acc x, reads_only (body acc x)) ->
  forall acc, reads_only (fold_loop body xs acc).
Proof.
  intros Hb. induction xs as [|x r IH]; intros acc; cbn [fold_loop].
  - apply reads_only_ret.
  - apply reads_only_bind; [apply Hb | exact IH].
Qed.

Lemma reads_only_list_files_in_folder p :
  reads_only (FileManager.list_files_in_folder p).
Proof.
  intros w1 w2 Hfs. unfold FileManager.list_files_in_folder, bind, get_world.
  rewrite <- Hfs. destruct (OS.listdir p (fs w1)); cbn.
  - split; [reflexivity | apply quiet_step_refl].
  - split; [reflexivity | apply quiet_step_event; reflexivity].
Qed.

Lemma reads_only_extract_file env p : reads_only (extract_file env p).
Proof.
  intros w1 w2 Hfs. unfold extract_file, bind, get_world, lift.
  rewrite <- Hfs. destruct (OS.read_file p (fs w1)) as [bytes|e]; cbn;
    [| split; [reflexivity | apply quiet_step_refl]].
  destruct (endswith ".xz" p).
  { destruct (lzma_decode env bytes); cbn;
      (split; [reflexivity |]);
      [apply quiet_step_event; reflexivity | apply quiet_step_refl]. }
  destruct (endswith ".gz" p).
  { destruct (gzip_decode env bytes); cbn;
      (split; [reflexivity |]);
      [apply quiet_step_event; reflexivity | apply quiet_step_refl]. }
  destruct (text_decode env bytes); cbn;
    (split; [reflexivity |]);
    [apply quiet_step_event; reflexivity | apply quiet_step_refl].
Qed.

Lemma reads_only_find env l : reads_only (find_and_extract_packages env l).
Proof.
  induction l as [|p r IH]; cbn [find_and_extract_packages].
  - apply reads_only_ret.
  - destruct (is_packages_file p); [| exact IH].
    apply reads_only_bind; [apply reads_only_extract_file |].
    intros data. apply reads_only_bind; [apply reads_only_lift |].
    intros pkgs. apply reads_only_ret.
Qed.

Lemma reads_only_remove_arch env args d c acc a :
  reads_only (remove_arch env args d c acc a).
Proof.
  unfold remove_arch.
  apply reads_only_bind; [apply reads_only_list_files_in_folder | intros pack_files].
  apply reads_only_bind; [apply reads_only_find | intros info].
  apply reads_only_bind; [apply reads_only_lift | intros n].
  apply reads_only_bind; [apply reads_only_lift | intros pkgs].
  apply reads_only_ret.
Qed.

Lemma reads_only_remove_plan env args : reads_only (remove_plan env args).
Proof.
  unfold remove_plan. apply reads_only_fold_loop. intros acc d.
  unfold remove_distribution. apply reads_only_fold_loop. intros acc' c.
  unfold remove_component. apply reads_only_fold_loop. intros acc'' a.
  apply reads_only_remove_arch.
Qed.

(** *** The mirror operation against the prune operation *)




Lemma same_indexes_sym env args f1 f2 :
  same_indexes env args f1 f2 -> same_indexes env args f2 f1.
Proof. intros H d c a Hd Hc Ha. symmetry. apply H; assumption. Qed.









Lemma mirror_packages_run args pkgs : forall link w,
  mirror_packages args pkgs link w
  = (Ok (link ++ map (filesave args) pkgs),
     set_futures (futures w ++ map (package_task args) pkgs) w).
Proof.
  induction pkgs as [|p r IH]; intros link w; cbn [mirror_packages map].
  - unfold ret. rewrite !app_nil_r. destruct w; reflexivity.
  - unfold bind, submit, modify. rewrite IH. cbn [futures set_futures].
    rewrite <- !app_assoc. reflexivity.
Qed.












End PlannerFacts.

Section PlannerClaims.
Import PyStr PackageHandler RepositoryManage.


(** C9.  When the line read from the user is not an affirmative answer,
    [remove_repository] leaves the disk exactly as it was: no file is
    removed and no directory is deleted, whatever the list of files is and
    also when deriving it raises. *)
Theorem remove_repository_needs_yes env args line w :
  String.eqb (answer line) "y" = false ->
  fs (snd (remove_repository env args line w)) = fs w
  /\ OS.files (fs (snd (remove_repository env args line w))) = OS.files (fs w)
  /\ OS.dirs (fs (snd (remove_repository env args line w))) = OS.dirs (fs w).
Proof.
  intros Hno.
  assert (H : fs (snd (remove_repository env args line w)) = fs w).
  { unfold remove_repository, bind. rewrite Hno.
    destruct (reads_only_remove_plan env args w w eq_refl) as (_ & Q1 & _).
    destruct (remove_plan env args w) as [[l|e] wp]; cbn in *; exact Q1. }
  rewrite H. repeat split.
Qed.

Lemma remove_repository_needs_yes_witness :
  String.eqb (answer " N ") "y" = false
  /\ fs (snd (remove_repository Scenario.env_up Scenario.args0 " N "
                (Scenario.world_of Scenario.fs_mirrored)))
     = fs (Scenario.world_of Scenario.fs_mirrored).
Proof.
  split; [vm_compute; reflexivity |].
  apply (remove_repository_needs_yes Scenario.env_up Scenario.args0 " N "
           (Scenario.world_of Scenario.fs_mirrored)).
  vm_compute. reflexivity.
Defined.

(** With an affirmative answer the same call does change the disk: the
    package file and the tree of the distribution are gone. *)
Example remove_repository_yes_deletes :
  let w' := snd (remove_repository Scenario.env_up Scenario.args0 " Y "
                   (Scenario.world_of Scenario.fs_mirrored)) in
  OS.files (fs w') !! "/r/h/debian/pool/a.deb" = None
  /\ OS.isdir (fs w') "/r/h/debian/dists/stable" = false
  /\ OS.isdir (fs w') "/r/h/debian/pool" = true.
Proof. vm_compute. repeat split. Qed.

(** C1.  Evaluation at the failing input: with no file at all under the
    directory of amd64, whether the directory is missing or empty, the
    listing is empty, [find_and_extract_packages] returns [None] and the
    run ends with a TypeError, although every task of the pool ended
    normally; no package task was submitted. *)
Theorem missing_index_raises_type_error :
  let w0 := Scenario.world_of Scenario.fs_empty in
  let w1 := Scenario.world_of Scenario.fs_bare in
  fst (FileManager.list_files_in_folder
         (save_path Scenario.args0 "stable" "main" "amd64") w0) = Ok []
  /\ fst (FileManager.list_files_in_folder
            (save_path Scenario.args0 "stable" "main" "amd64") w1) = Ok []
  /\ fst (find_and_extract_packages Scenario.env_up [] w0) = Ok None
  /\ fst (mirror_repository Scenario.env_up Scenario.args0 w0) = Raise TypeError
  /\ fst (mirror_repository Scenario.env_up Scenario.args0 w1) = Raise TypeError
  /\ package_destinations
       (snd (mirror_repository Scenario.env_up Scenario.args0 w1)) = []
  /\ collect (fst (run_pool Scenario.env_up
                     (futures (snd (mirror_plan Scenario.env_up Scenario.args0 w1)))
                     (snd (mirror_plan Scenario.env_up Scenario.args0 w1))))
     = Ok tt.
Proof. vm_compute. repeat split. Qed.

(** Whatever the disk, a listing without a package index makes the
    planning of the architecture raise. *)
Lemma find_none env l w :
  Forall (fun f => is_packages_file f = false) l ->
  find_and_extract_packages env l w = (Ok None, w).
Proof.
  induction 1 as [|p r Hp _ IH]; cbn [find_and_extract_packages]; [reflexivity |].
  rewrite Hp. exact IH.
Qed.

Lemma mirror_arch_packages_no_index env args d c link a w pack_files w1 :
  FileManager.list_files_in_folder (save_path args d c a) w = (Ok pack_files, w1) ->
  Forall (fun f => is_packages_file f = false) pack_files ->
  mirror_arch_packages env args d c link a w = (Raise TypeError, w1).
Proof.
  intros Hl Hn. unfold mirror_arch_packages, bind. rewrite Hl.
  rewrite (find_none env _ _ Hn). reflexivity.
Qed.

(** C5 as stated fails: the index of amd64 has two records and only the
    first has a Filename field, yet two package tasks are submitted, the
    second for a path that ends with the text None, and that path is
    requested. *)
Lemma record_without_filename_gets_a_task :
  let '(r, w') := mirror_repository Scenario.env_up Scenario.args0
                    (Scenario.world_of Scenario.fs_plain) in
  parse_packages_data Scenario.index_text
    = Ok [[("Package", "a"); ("Filename", "pool/a.deb")]; [("Package", "b")]]
  /\ List.filter (fun t => negb (t_overwrite t)) (futures w')
     = [mk_task "http://h/debian/pool/a.deb" "/r/h/debian/pool/a.deb" false;
        mk_task "http://h/debian/None" "/r/h/debian/None" false]
  /\ In (ENet "http://h/debian/None") (trace w').
Proof. vm_compute. repeat split; auto 30. Qed.

(** C5, amended.  For a decoded and parsed package index the planner
    submits exactly one package task per record, in the order of the
    records and whether or not the record has a Filename field, each with
    overwrite=False; for a record with a Filename field the source is
    proto://url/inpath/Filename and the destination is
    rootpath/url/inpath/Filename. *)
Theorem one_package_task_per_record env args :
  (forall pkgs link_list w,
     mirror_packages args pkgs link_list w
     = (Ok (link_list ++ map (filesave args) pkgs),
        set_futures (futures w ++ map (package_task args) pkgs) w))
  /\ (forall pkgs, length (map (package_task args) pkgs) = length pkgs)
  /\ (forall d c a link_list w pack_files w1 pkgs w2,
        FileManager.list_files_in_folder (save_path args d c a) w
        = (Ok pack_files, w1) ->
        find_and_extract_packages env pack_files w1 = (Ok (Some pkgs), w2) ->
        mirror_arch_packages env args d c link_list a w
        = (Ok (link_list ++ map (filesave args) pkgs),
           set_futures (futures w2 ++ map (package_task args) pkgs) w2))
  /\ (forall package f,
        PyDict.get "Filename" package = Some f ->
        package_task args package
        = mk_task (proto args +:+ "://" +:+ url args +:+ "/" +:+ inpath args
                   +:+ "/" +:+ f)
                  (rootpath args +:+ "/" +:+ url args +:+ "/" +:+ inpath args
                   +:+ "/" +:+ f)
                  false).
Proof.
  split; [intros; apply mirror_packages_run |].
  split; [intros; apply length_map |].
  split.
  { intros d c a link w pack_files w1 pkgs w2 Hl Hf.
    unfold mirror_arch_packages, bind. rewrite Hl, Hf. cbn.
    apply mirror_packages_run. }
  intros package f Hf. unfold package_task, downloadlink, filesave.
  rewrite Hf. reflexivity.
Qed.
End PlannerClaims.

(** ** Decode errors *)

Section DecodeClaims.
Import PyStr PackageHandler RepositoryManage.

Lemma bind_raise {A B} (c : M A) (k : A -> M B) w a w1 e w2 :
  c w = (Ok a, w1) -> k a w1 = (Raise e, w2) -> bind c k w = (Raise e, w2).
Proof. intros H1 H2. unfold bind. rewrite H1. exact H2. Qed.

Lemma fold_loop_raise {A} (body : list string -> A -> M (list string))
      xs1 x xs2 : forall acc w acc1 w1 e w2,
  fold_loop body xs1 acc w = (Ok acc1, w1) ->
  body acc1 x w1 = (Raise e, w2) ->
  fold_loop body (xs1 ++ x :: xs2) acc w = (Raise e, w2).
Proof.
  induction xs1 as [|y r IH]; intros acc w acc1 w1 e w2 H1 H2.
  - cbn in H1. injection H1 as <- <-. cbn [app fold_loop]. unfold bind.
    rewrite H2. reflexivity.
  - cbn [app fold_loop] in *. unfold bind in *.
    destruct (body acc y w) as [[acc'|e'] w']; [| discriminate].
    eapply IH; eassumption.
Qed.

Lemma find_first env skipped file_path rest w :
  Forall (fun f => is_packages_file f = false) skipped ->
  is_packages_file file_path = true ->
  find_and_extract_packages env (skipped ++ file_path :: rest) w
  = bind (extract_file env file_path)
         (fun data => bind (lift (parse_packages_data data))
                           (fun pkgs => ret (Some pkgs))) w.
Proof.
  intros Hs Hp. induction Hs as [|p r Hn _ IH]; cbn [app find_and_extract_packages].
  - rewrite Hp. reflexivity.
  - rewrite Hn. exact IH.
Qed.

(** C7 as stated fails: the compressed index of amd64 is damaged, and the
    run over amd64 and i386 ends with the decode error; nothing of i386 was
    planned, neither its contents index nor the package of its own index,
    which reads well. *)
Lemma damaged_index_ends_the_run :
  let '(r, w') := mirror_repository Scenario.env_up Scenario.args2
                    (Scenario.world_of Scenario.fs_damaged) in
  r = Raise LZMAError
  /\ map t_path (futures w')
     = ["http://h/debian/dists/stable/InRelease";
        "http://h/debian/dists/stable/Release";
        "http://h/debian/dists/stable/Release.gpg";
        "http://h/debian/dists/stable/main/Contents-amd64.gz"]
  /\ fst (remove_arch Scenario.env_up Scenario.args2 "stable" "main" [] "i386"
            (Scenario.world_of Scenario.fs_damaged))
     = Ok ["/r/h/debian/pool/a.deb"; "/r/h/debian/None"].
Proof. vm_compute. repeat split. Qed.

(** C7, amended.  Reading an index whose bytes are not valid for the
    decoder its suffix selects (lzma for .xz, gzip for .gz, the text layer
    otherwise) raises the decode error of that decoder.  Nothing catches
    it: [find_and_extract_packages] raises it when that file is the first
    package index of the listing, the planning of the architecture raises
    it, a loop that meets it stops there without running its later
    iterations, and [mirror_repository] ends with the exception its
    planning raised. *)
Theorem decode_error_propagates env args :
  (forall file_path w bytes,
     OS.read_file file_path (fs w) = Ok bytes ->
     (endswith ".xz" file_path = true ->
      lzma_decode env bytes = None ->
      extract_file env file_path w = (Raise LZMAError, w))
     /\ (endswith ".xz" file_path = false ->
         endswith ".gz" file_path = true ->
         gzip_decode env bytes = None ->
         extract_file env file_path w = (Raise BadGzipFile, w))
     /\ (endswith ".xz" file_path = false ->
         endswith ".gz" file_path = false ->
         text_decode env bytes = None ->
         extract_file env file_path w = (Raise UnicodeDecodeError, w)))
  /\ (forall skipped file_path rest w e w',
        Forall (fun f => is_packages_file f = false) skipped ->
        is_packages_file file_path = true ->
        extract_file env file_path w = (Raise e, w') ->
        find_and_extract_packages env (skipped ++ file_path :: rest) w
        = (Raise e, w'))
  /\ (forall d c a link_list w w1 pack_files w2 e w3,
        mirror_arch_sync env args d c a w = (Ok tt, w1) ->
        FileManager.list_files_in_folder (save_path args d c a) w1
        = (Ok pack_files, w2) ->
        find_and_extract_packages env pack_files w2 = (Raise e, w3) ->
        mirror_arch env args d c link_list a w = (Raise e, w3))
  /\ (forall (body : list string -> string -> M (list string))
             xs1 x xs2 acc w acc1 w1 e w2,
        fold_loop body xs1 acc w = (Ok acc1, w1) ->
        body acc1 x w1 = (Raise e, w2) ->
        fold_loop body (xs1 ++ x :: xs2) acc w = (Raise e, w2))
  /\ (forall w0 e,
        fst (mirror_plan env args (set_futures [] w0)) = Raise e ->
        fst (mirror_repository env args w0) = Raise e).
Proof.
  split; [| split; [| split; [| split]]].
  - intros file_path w bytes Hr.
    unfold extract_file, bind, get_world, lift. rewrite Hr.
    repeat split.
    + intros -> ->. reflexivity.
    + intros -> -> ->. reflexivity.
    + intros -> -> ->. reflexivity.
  - intros skipped file_path rest w e w' Hs Hp He.
    rewrite (find_first env _ _ rest w Hs Hp). unfold bind. rewrite He. reflexivity.
  - intros d c a link w w1 pack_files w2 e w3 H1 H2 H3.
    unfold mirror_arch. eapply bind_raise; [exact H1 |].
    unfold mirror_arch_packages.
    eapply bind_raise; [exact H2 |].
    unfold bind. rewrite H3. reflexivity.
  - intros body xs1 x xs2 acc w acc1 w1 e w2. apply fold_loop_raise.
  - intros w0 e H. unfold mirror_repository.
    destruct (mirror_plan env args (set_futures [] w0)) as [planned w1].
    cbn in H. subst planned.
    destruct (run_pool env (futures w1) w1). reflexivity.
Qed.

Lemma decode_error_propagates_witness :
  let w := Scenario.world_of Scenario.fs_damaged in
  let p := "/r/h/debian/dists/stable/main/binary-amd64/Packages.xz" in
  OS.read_file p (fs w) = Ok "garbage"
  /\ endswith ".xz" p = true
  /\ lzma_decode Scenario.env_up "garbage" = None
  /\ extract_file Scenario.env_up p w = (Raise LZMAError, w)
  /\ is_packages_file p = true
  /\ find_and_extract_packages Scenario.env_up ([] ++ p :: []) w
     = (Raise LZMAError, w).
Proof.
  cbv zeta.
  assert (H : extract_file Scenario.env_up
                "/r/h/debian/dists/stable/main/binary-amd64/Packages.xz"
                (Scenario.world_of Scenario.fs_damaged)
              = (Raise LZMAError, Scenario.world_of Scenario.fs_damaged)).
  { apply (proj1 (proj1 (decode_error_propagates Scenario.env_up Scenario.args2)
                    "/r/h/debian/dists/stable/main/binary-amd64/Packages.xz"
                    (Scenario.world_of Scenario.fs_damaged) "garbage"
                    ltac:(vm_compute; reflexivity)));
      vm_compute; reflexivity. }
  split; [vm_compute; reflexivity |].
  split; [vm_compute; reflexivity |].
  split; [vm_compute; reflexivity |].
  split; [exact H |].
  split; [vm_compute; reflexivity |].
  apply (proj1 (proj2 (decode_error_propagates Scenario.env_up Scenario.args2))
           [] "/r/h/debian/dists/stable/main/binary-amd64/Packages.xz" []
           (Scenario.world_of Scenario.fs_damaged) LZMAError
           (Scenario.world_of Scenario.fs_damaged)).
  - constructor.
  - vm_compute. reflexivity.
  - exact H.
Defined.

(** Witnesses of the other statements *)

Lemma download_file_parent_first_witness :
  let w := Scenario.world_of Scenario.fs_empty in
  parent_directory_ready (fs w) "/r/h/debian/pool/a.deb" = true
  /\ exists w1 pre,
       Downloader.ensure_folder "/r/h/debian/pool/a.deb" w = (Ok tt, w1)
       /\ OS.isdir (fs w1) (OS.dirname "/r/h/debian/pool/a.deb") = true
       /\ OS.files (fs w1) = OS.files (fs w)
       /\ added w w1 pre
       /\ Forall (fun e => is_net e = false) pre
       /\ skipped_count w1 = skipped_count w
       /\ downloaded_count w1 = downloaded_count w
       /\ Downloader.download_file Scenario.env0 "http://h/debian/pool/a.deb"
            "/r/h/debian/pool/a.deb" false w
          = Downloader.fetch_unless_present Scenario.env0
              "http://h/debian/pool/a.deb" "/r/h/debian/pool/a.deb" false w1
       /\ OS.isdir
            (fs (snd (Downloader.download_file Scenario.env0
                        "http://h/debian/pool/a.deb"
                        "/r/h/debian/pool/a.deb" false w)))
            (OS.dirname "/r/h/debian/pool/a.deb") = true.
Proof.
  cbv zeta. split; [vm_compute; reflexivity |].
  apply (download_file_parent_first Scenario.env0
           "http://h/debian/pool/a.deb" "/r/h/debian/pool/a.deb" false
           (Scenario.world_of Scenario.fs_empty)).
  vm_compute. reflexivity.
Defined.

Lemma one_package_task_per_record_witness :
  let package := [("Package", "a"); ("Filename", "pool/a.deb")] in
  PyDict.get "Filename" package = Some "pool/a.deb"
  /\ package_task Scenario.args0 package
     = mk_task "http://h/debian/pool/a.deb" "/r/h/debian/pool/a.deb" false.
Proof.
  cbv zeta.
  split; [vm_compute; reflexivity |].
  apply (proj2 (proj2 (proj2
           (one_package_task_per_record Scenario.env_up Scenario.args0)))
           [("Package", "a"); ("Filename", "pool/a.deb")] "pool/a.deb").
  vm_compute. reflexivity.
Defined.

End DecodeClaims.

(** ** The prune operation against the mirror operation *)

Section PruneClaims.
Import PyStr PackageHandler RepositoryManage.





End PruneClaims.

(** ** Further properties: the index text *)

Section IndexText.
Import PyStr PyDict PackageHandler Blocks.
Local Arguments startswith : simpl never.
Local Arguments strip : simpl never.

Lemma str_app_cons c r x : String c r +:+ x = String c (r +:+ x).
Proof. reflexivity. Qed.

Lemma str_app_nil_l x : "" +:+ x = x.
Proof. reflexivity. Qed.

Lemma str_app_assoc a b c : (a +:+ b) +:+ c = a +:+ (b +:+ c).
Proof.
  induction a as [|x r IH]; [reflexivity |].
  rewrite !str_app_cons, IH. reflexivity.
Qed.

Lemma rev_acc_app s acc : rev_acc s acc = rev s +:+ acc.
Proof.
  unfold rev. revert acc. induction s as [|c r IH]; intros acc; cbn [rev_acc].
  - reflexivity.
  - rewrite (IH (String c acc)), (IH (String c "")), str_app_assoc. reflexivity.
Qed.

Lemma rev_cons c s : rev (String c s) = rev s +:+ String c "".
Proof. unfold rev at 1. cbn [rev_acc]. apply rev_acc_app. Qed.

Lemma rstrip_app_nl s : rstrip (s +:+ nl) = rstrip s.
Proof.
  induction s as [|c r IH].
  - reflexivity.
  - rewrite str_app_cons. cbn [rstrip]. rewrite IH. reflexivity.
Qed.

Lemma strip_app_nl s : strip (s +:+ nl) = strip s.
Proof.
  unfold strip. induction s as [|c r IH].
  - reflexivity.
  - rewrite str_app_cons. cbn [lstrip]. destruct (is_space c); [exact IH |].
    rewrite <- str_app_cons. apply rstrip_app_nl.
Qed.

Lemma rstrip_idem s : rstrip (rstrip s) = rstrip s.
Proof.
  induction s as [|c r IH]; [reflexivity |].
  cbn [rstrip]. destruct (is_empty (rstrip r) && is_space c) eqn:E; [reflexivity |].
  cbn [rstrip]. rewrite IH, E. reflexivity.
Qed.

Lemma lstrip_head s :
  lstrip s = "" \/ exists c r, lstrip s = String c r /\ is_space c = false.
Proof.
  induction s as [|c r IH]; [left; reflexivity |].
  cbn [lstrip]. destruct (is_space c) eqn:E; [exact IH |]. right. eauto.
Qed.

(** [strip] changes nothing in a text it has produced. *)
Lemma strip_idem s : strip (strip s) = strip s.
Proof.
  unfold strip. destruct (lstrip_head s) as [-> | (c & r & -> & Hc)]; [reflexivity |].
  cbn [rstrip]. rewrite Hc, andb_false_r. cbn [lstrip]. rewrite Hc.
  cbn [rstrip]. rewrite rstrip_idem, Hc, andb_false_r. reflexivity.
Qed.

(** The text [rstrip] returns does not end with white space. *)
Lemma rstrip_last s a c : rstrip s = a +:+ String c "" -> is_space c = false.
Proof.
  revert a. induction s as [|x r IH]; intros a; cbn [rstrip].
  - destruct a; discriminate.
  - destruct (is_empty (rstrip r)) eqn:He; cbn [andb].
    + destruct (is_space x) eqn:Hx; [destruct a; discriminate |].
      destruct (rstrip r); [| discriminate].
      destruct a as [|y a']; [intros [= <-]; exact Hx |].
      rewrite str_app_cons. intros [= _ H]. destruct a'; discriminate.
    + destruct a as [|y a'].
      * rewrite str_app_nil_l. intros [= _ H]. rewrite H in He. discriminate.
      * rewrite str_app_cons. intros [= _ H]. eapply IH. exact H.
Qed.

Lemma parse_line_strip_ext s l1 l2 :
  strip l1 = strip l2 -> parse_line s l1 = parse_line s l2.
Proof. intros H. unfold parse_line. rewrite H. reflexivity. Qed.

Lemma parse_loop_strip_ext l1 : forall l2 s,
  map strip l1 = map strip l2 -> parse_loop s l1 = parse_loop s l2.
Proof.
  induction l1 as [|x r IH]; intros [|y r2] s H; try discriminate; [reflexivity |].
  cbn [map] in H. injection H as Hx Hr. cbn [parse_loop].
  rewrite (parse_line_strip_ext s x y Hx).
  destruct (parse_line s y); cbn [rbind]; [apply IH, Hr | reflexivity].
Qed.

Lemma is_linebreak_LF : is_linebreak LF = true.
Proof. reflexivity. Qed.

Lemma eqb_LF_CR : Ascii.eqb LF CR = false.
Proof. reflexivity. Qed.

Lemma file_lines_splitlines s : forall cur,
  only_lf s = true ->
  map strip (file_lines_from cur s) = map strip (splitlines_from cur s).
Proof.
  induction s as [|c r IH]; intros cur H.
  - reflexivity.
  - cbn [only_lf] in H. apply andb_true_iff in H as [Hc Hr].
    cbn [file_lines_from splitlines_from].
    destruct (Ascii.eqb c LF) eqn:E.
    + apply Ascii.eqb_eq in E. subst c. rewrite is_linebreak_LF, eqb_LF_CR.
      cbn [andb]. rewrite rev_cons.
      destruct r as [|c' r'].
      * cbn [file_lines_from is_empty map]. rewrite strip_app_nl. reflexivity.
      * cbn [map]. rewrite strip_app_nl. f_equal. apply IH, Hr.
    + rewrite orb_false_r in Hc. apply negb_true_iff in Hc. rewrite Hc.
      apply IH, Hr.
Qed.

(** X1.  For a file whose bytes decode to a text in which LF is the only
    line boundary, [parse_packages_file] returns exactly what
    [parse_packages_data] returns on that text, and it leaves the world as
    it is. *)
Theorem parse_packages_file_agrees env file_path w bytes text :
  OS.read_file file_path (fs w) = Ok bytes ->
  text_decode env bytes = Some text ->
  only_lf text = true ->
  parse_packages_file env file_path w = (parse_packages_data text, w).
Proof.
  intros Hr Hd Hlf. unfold parse_packages_file, bind, get_world, lift.
  rewrite Hr, Hd. unfold parse_packages_data, parse_lines.
  rewrite (parse_loop_strip_ext _ _ _ (file_lines_splitlines text "" Hlf)).
  reflexivity.
Qed.

(** X2.  White space at the start and at the end of a line never matters
    to the parser: two lists of lines that are equal once every line is
    stripped parse alike, and stripping every line beforehand changes
    nothing. *)
Theorem parse_lines_ignores_margins :
  (forall lines lines',
     map strip lines = map strip lines' ->
     parse_lines lines = parse_lines lines')
  /\ (forall lines, parse_lines (map strip lines) = parse_lines lines).
Proof.
  split.
  - intros lines lines' H. unfold parse_lines. f_equal.
    apply parse_loop_strip_ext. exact H.
  - intros lines. unfold parse_lines. f_equal. apply parse_loop_strip_ext.
    rewrite map_map. apply map_ext. intros l. apply strip_idem.
Qed.
End IndexText.

Section Records.
Import PyStr PyDict PackageHandler Blocks.
Local Arguments startswith : simpl never.
Local Arguments strip : simpl never.

Lemma NoDup_keys_setitem k v (d : dict) :
  List.NoDup (keys d) -> List.NoDup (keys (setitem k v d)).
Proof.
  intros H. destruct (in_dec string_dec k (keys d)) as [Hin | Hout].
  - rewrite keys_setitem_present by exact Hin. exact H.
  - rewrite keys_setitem_absent by exact Hout.
    apply NoDup_ListNoDup. apply NoDup_app. 
    split; [apply NoDup_ListNoDup; exact H |].
    split; [| apply NoDup_singleton].
    intros x Hx Hk. apply list_elem_of_singleton in Hk. subst x.
    apply Hout. apply list_elem_of_In. exact Hx.
Qed.

Lemma parse_line_keeps_records_sound s line s' :
  Forall (fun r : record => r <> [] /\ List.NoDup (keys r)) (packages s) ->
  List.NoDup (keys (current_package s)) ->
  parse_line s line = Ok s' ->
  Forall (fun r : record => r <> [] /\ List.NoDup (keys r)) (packages s')
  /\ List.NoDup (keys (current_package s')).
Proof.
  destruct s as [pk c]. cbn [packages current_package]. intros Hpk Hc.
  unfold parse_line. cbn [packages current_package].
  destruct (negb (PyStr.truthy (strip line))).
  - destruct c as [|e c0]; cbn [PyDict.truthy].
    + intros [= <-]. split; assumption.
    + intros [= <-]. cbn [packages current_package]. split; [| constructor].
      apply Forall_app. split; [exact Hpk |].
      constructor; [split; [discriminate | exact Hc] | constructor].
  - destruct (contains ": " (strip line)).
    + unfold split1. destruct (partition ": " (strip line)) as [[a b]|];
        cbn; [| discriminate].
      intros [= <-]. cbn [packages current_package].
      split; [exact Hpk | apply NoDup_keys_setitem, Hc].
    + destruct (last_key c) as [k|]; [| intros [= <-]; split; assumption].
      destruct (PyStr.truthy k); [| intros [= <-]; split; assumption].
      destruct (getitem k c); cbn [rbind]; [| discriminate].
      intros [= <-]. cbn [packages current_package].
      split; [exact Hpk | apply NoDup_keys_setitem, Hc].
Qed.

Lemma parse_loop_keeps_records_sound lines : forall s s',
  Forall (fun r : record => r <> [] /\ List.NoDup (keys r)) (packages s) ->
  List.NoDup (keys (current_package s)) ->
  parse_loop s lines = Ok s' ->
  Forall (fun r : record => r <> [] /\ List.NoDup (keys r)) (packages s')
  /\ List.NoDup (keys (current_package s')).
Proof.
  induction lines as [|l r IH]; intros s s' Hpk Hc; cbn [parse_loop].
  - intros [= <-]. split; assumption.
  - destruct (parse_line s l) as [s1|e] eqn:E; cbn [rbind]; [| discriminate].
    destruct (parse_line_keeps_records_sound _ _ _ Hpk Hc E) as [H1 H2].
    apply IH; assumption.
Qed.

(** X3.  Whatever the text, the parser returns records that are not empty
    and whose keys are pairwise distinct; a text none of whose lines has
    the separator yields no record at all. *)
Theorem parsed_records_are_sound data :
  exists recs,
    parse_packages_data data = Ok recs
    /\ Forall (fun r : record => r <> [] /\ List.NoDup (keys r)) recs
    /\ (forallb (fun l => negb (has_separator l)) (splitlines data) = true ->
        recs = []).
Proof.
  destruct (parse_lines_blocks (splitlines data)) as (recs & Hp & Hf).
  exists recs. split; [exact Hp |]. split.
  - unfold parse_packages_data, parse_lines in Hp.
    destruct (parse_loop (mk_pstate [] []) (splitlines data)) as [s|e] eqn:E;
      cbn [rbind] in Hp; [| discriminate].
    injection Hp as <-.
    destruct (parse_loop_keeps_records_sound (splitlines data)
                (mk_pstate [] []) s
                (List.Forall_nil _) (List.NoDup_nil _) E) as [H1 H2].
    unfold flush. destruct (current_package s) as [|e c0] eqn:Ec; cbn [PyDict.truthy].
    + exact H1.
    + apply Forall_app. split; [exact H1 |].
      constructor; [split; [discriminate | exact H2] | constructor].
  - intros Hno.
    assert (Hb : forall lines cur,
               forallb (fun l => negb (has_separator l)) cur = true ->
               forallb (fun l => negb (has_separator l)) lines = true ->
               List.filter has_key_line (blocks_from cur lines) = []).
    { assert (Hk : forall b, forallb (fun l => negb (has_separator l)) b = true ->
                             has_key_line b = false).
      { induction b as [|x b IHb]; [reflexivity |]. cbn. intros H.
        apply andb_true_iff in H as [Hx Hb0]. apply negb_true_iff in Hx.
        rewrite Hx. apply IHb, Hb0. }
      induction lines as [|l r IH]; intros cur Hcur Hl; cbn [blocks_from].
      - destruct cur; [reflexivity |]. cbn [List.filter]. rewrite (Hk _ Hcur). reflexivity.
      - cbn [forallb] in Hl. apply andb_true_iff in Hl as [Hl0 Hr].
        destruct (blank l).
        + destruct cur as [|x cur'].
          * apply IH; [reflexivity | exact Hr].
          * cbn [List.filter]. rewrite (Hk _ Hcur). apply IH; [reflexivity | exact Hr].
        + apply IH; [| exact Hr]. rewrite forallb_app, Hcur. cbn. rewrite Hl0. reflexivity. }
    unfold blocks in Hf. rewrite (Hb _ [] eq_refl Hno) in Hf.
    inversion Hf. reflexivity.
Qed.

Lemma prefix_drop p s :
  String.prefix p s = true -> p +:+ PyStr.drop (String.length p) s = s.
Proof.
  revert s. induction p as [|c r IH]; intros s; [reflexivity |].
  destruct s as [|d s']; cbn [String.prefix]; [discriminate |].
  destruct (ascii_dec c d) as [<- | _]; [| discriminate].
  intros H. rewrite str_app_cons. cbn [String.length PyStr.drop]. rewrite IH by exact H.
  reflexivity.
Qed.

Lemma prefix_app_r p x y :
  String.prefix p x = true -> String.prefix p (x +:+ y) = true.
Proof.
  revert x. induction p as [|c r IH]; intros x;
    [intros _; destruct (x +:+ y); reflexivity |].
  destruct x as [|d x']; cbn [String.prefix]; [discriminate |].
  rewrite str_app_cons. cbn [String.prefix].
  destruct (ascii_dec c d); [apply IH | discriminate].
Qed.

Lemma partition_split sep s a b :
  partition sep s = Some (a, b) ->
  a +:+ sep +:+ b = s /\ (sep <> "" -> contains sep a = false).
Proof.
  revert a b. induction s as [|c r IH]; intros a b; cbn [partition].
  - destruct (startswith sep "") eqn:E; [| discriminate].
    intros [= <- <-]. split.
    + rewrite str_app_nil_l. apply prefix_drop. exact E.
    + intros Hne. destruct sep; [congruence | reflexivity].
  - destruct (startswith sep (String c r)) eqn:E.
    + intros [= <- <-]. split.
      * rewrite str_app_nil_l. apply prefix_drop. exact E.
      * intros Hne. destruct sep; [congruence | reflexivity].
    + destruct (partition sep r) as [[a' b']|] eqn:P; [| discriminate].
      intros [= <- <-]. destruct (IH a' b' eq_refl) as [H1 H2].
      split; [rewrite str_app_cons, H1; reflexivity |].
      intros Hne. cbn [contains]. rewrite (H2 Hne), orb_false_r.
      destruct (startswith sep (String c a')) eqn:E'; [| reflexivity].
      unfold startswith in *.
      apply (prefix_app_r _ _ (sep +:+ b')) in E'.
      rewrite str_app_cons, H1 in E'. congruence.
Qed.

(** X4.  A line that is not blank and has the separator is split at its
    first occurrence: key, separator and value put together give the
    stripped line back, the key holds no separator, and the value is never
    empty (a line that ends with the separator has lost its last space to
    [strip] and is no key line). *)
Theorem key_line_splits_at_first_separator s line :
  blank line = false ->
  has_separator line = true ->
  exists k v,
    parse_line s line
    = Ok (mk_pstate (packages s) (setitem k v (current_package s)))
    /\ k +:+ ": " +:+ v = strip line
    /\ contains ": " k = false
    /\ v <> "".
Proof.
  intros Hb Hs. unfold blank in Hb. apply negb_false_iff in Hb.
  unfold has_separator in Hs.
  destruct (contains_partition _ _ Hs) as (k & v & Hp).
  destruct (partition_split _ _ _ _ Hp) as [H1 H2].
  exists k, v. split.
  { unfold parse_line. rewrite Hb, Hs. unfold split1. rewrite Hp. reflexivity. }
  split; [exact H1 |]. split; [apply H2; discriminate |].
  intros ->. unfold strip in H1.
  change (k +:+ ": " +:+ "") with (k +:+ String ":" (String " " "")) in H1.
  change (String ":" (String " " "")) with (String ":" "" +:+ String " " "") in H1.
  rewrite <- str_app_assoc in H1. symmetry in H1.
  apply rstrip_last in H1. discriminate.
Qed.
End Records.

(** ** Further properties: index files, deletion and the answer *)

Section IndexFiles.
Import PyStr PackageHandler RepositoryManage.

(** X5.  [find_and_extract_packages] reads the first file of the list
    whose name ends with Packages, Packages.xz or Packages.gz and nothing
    else: the files before it and the files after it, index files or not,
    change neither the result nor the world. *)
Theorem find_reads_first_index_only env skipped file_path rest w :
  Forall (fun f => is_packages_file f = false) skipped ->
  is_packages_file file_path = true ->
  find_and_extract_packages env (skipped ++ file_path :: rest) w
  = find_and_extract_packages env [file_path] w.
Proof.
  intros Hs Hp. rewrite (find_first env skipped file_path rest w Hs Hp).
  symmetry. exact (find_first env [] file_path [] w (List.Forall_nil _) Hp).
Qed.

Lemma find_index_not_none env p w :
  fst (bind (extract_file env p)
            (fun data => bind (lift (parse_packages_data data))
                              (fun pkgs => ret (Some pkgs))) w) <> Ok None.
Proof.
  unfold bind. destruct (extract_file env p w) as [[data|e] w1]; [| discriminate].
  unfold lift. destruct (parse_lines_total (splitlines data)) as [recs Hr].
  unfold parse_packages_data. rewrite Hr. discriminate.
Qed.

(** X6.  [find_and_extract_packages] returns [None] exactly when no file of
    the list has one of the three index names; with such a file it returns
    a list or raises. *)
Theorem find_returns_none_iff_no_index env file_list w :
  fst (find_and_extract_packages env file_list w) = Ok None
  <-> Forall (fun f => is_packages_file f = false) file_list.
Proof.
  split.
  - induction file_list as [|p r IH]; [constructor |].
    cbn [find_and_extract_packages].
    destruct (is_packages_file p) eqn:E.
    + intros H. exfalso. exact (find_index_not_none env p w H).
    + intros H. constructor; [exact E | exact (IH H)].
  - intros H. rewrite (find_none env _ w H). reflexivity.
Qed.

(** X7.  [list_files_in_folder] never raises and never changes the disk;
    every path it returns is a regular file and is the folder joined with
    a name; when the folder is not a directory it prints a message and
    returns the empty list. *)
Theorem list_files_in_folder_is_safe folder_path w :
  exists l w',
    FileManager.list_files_in_folder folder_path w = (Ok l, w')
    /\ fs w' = fs w
    /\ Forall (fun p => OS.isfile (fs w) p = true) l
    /\ Forall (fun p => exists name, p = OS.join folder_path name) l
    /\ (OS.isdir (fs w) (OS.norm_dir folder_path) = false ->
        l = [] /\ w' = add_event (EPrint ListingFailed) w).
Proof.
  unfold FileManager.list_files_in_folder, bind, get_world, OS.listdir.
  destruct (OS.isdir (fs w) (OS.norm_dir folder_path)) eqn:Hd.
  - unfold ret. eexists. exists w. split; [reflexivity |]. split; [reflexivity |].
    split; [| split; [| discriminate]].
    + apply Forall_forall. intros p Hp. apply list_elem_of_filter in Hp.
      destruct Hp as [Hp _]. exact Hp.
    + apply Forall_forall. intros p Hp. apply list_elem_of_filter in Hp.
      destruct Hp as [_ Hp]. apply list_elem_of_fmap in Hp.
      destruct Hp as (name & -> & _). eauto.
  - destruct (OS.isfile (fs w) (OS.norm_dir folder_path));
      (exists [], (add_event (EPrint ListingFailed) w));
      (split; [reflexivity |]); (split; [reflexivity |]);
      repeat split; constructor.
Qed.

(** *** The deletion loop *)

Lemma remove_one_run env file_path w :
  exists w',
    remove_one env file_path w = (Ok tt, w')
    /\ OS.dirs (fs w') = OS.dirs (fs w)
    /\ OS.files (fs w')
       = (if may_remove env file_path
          then delete file_path (OS.files (fs w)) else OS.files (fs w))
    /\ futures w' = futures w
    /\ downloaded_files w' = downloaded_files w
    /\ downloaded_count w' = downloaded_count w
    /\ skipped_count w' = skipped_count w
    /\ exists evs, added w w' evs /\ Forall (fun e => quiet e = true) evs.
Proof.
  unfold remove_one, bind, emit, modify, try_except, fs_op, OS.remove.
  cbn [fs add_event].
  destruct (OS.files (fs w) !! file_path) as [b|] eqn:E.
  - destruct (may_remove env file_path).
    + eexists. split; [reflexivity |]. cbn. repeat (split; [reflexivity |]).
      eexists. split; [reflexivity | repeat constructor].
    + eexists. split; [reflexivity |]. cbn. repeat (split; [reflexivity |]).
      eexists. split; [unfold added; cbn; rewrite <- app_assoc; reflexivity
                      | repeat constructor].
  - destruct (OS.isdir (fs w) file_path);
      (eexists; split; [reflexivity |]; cbn;
       split; [reflexivity |];
       split; [destruct (may_remove env file_path);
               [symmetry; apply delete_id; exact E | reflexivity] |];
       repeat (split; [reflexivity |]);
       eexists; split; [unfold added; cbn; rewrite <- app_assoc; reflexivity
                       | repeat constructor]).
Qed.

Lemma deletion_loop_run env file_list : forall w,
  exists w',
    for_each file_list (remove_one env) w = (Ok tt, w')
    /\ OS.dirs (fs w') = OS.dirs (fs w)
    /\ OS.files (fs w')
       = foldl (fun m p => if may_remove env p then delete p m else m)
               (OS.files (fs w)) file_list
    /\ futures w' = futures w
    /\ downloaded_files w' = downloaded_files w
    /\ downloaded_count w' = downloaded_count w
    /\ skipped_count w' = skipped_count w
    /\ exists evs, added w w' evs /\ Forall (fun e => quiet e = true) evs.
Proof.
  induction file_list as [|p r IH]; intros w; cbn [for_each foldl].
  - exists w. unfold ret. repeat (split; [reflexivity |]).
    exists []. split; [apply added_refl | constructor].
  - destruct (remove_one_run env p w)
      as (w1 & H1 & D1 & F1 & A1 & B1 & C1 & E1 & ev1 & G1 & Q1).
    destruct (IH w1) as (w2 & H2 & D2 & F2 & A2 & B2 & C2 & E2 & ev2 & G2 & Q2).
    exists w2. unfold bind. rewrite H1. split; [exact H2 |].
    split; [congruence |]. split; [rewrite F2, F1; reflexivity |].
    repeat (split; [congruence |]).
    exists (ev1 ++ ev2). split; [eapply added_trans; eassumption |].
    apply Forall_app. split; assumption.
Qed.

Lemma lookup_foldl_delete (may : string -> bool) (m : gmap string string) l q :
  foldl (fun m p => if may p then delete p m else m) m l !! q
  = if bool_decide (q ∈ l) && may q then None else m !! q.
Proof.
  revert m. induction l as [|p r IH]; intros m; cbn [foldl].
  - rewrite bool_decide_eq_false_2; [reflexivity | apply not_elem_of_nil].
  - rewrite IH. destruct (decide (q = p)) as [-> | Hne].
    + rewrite (bool_decide_eq_true_2 (p ∈ p :: r)) by (left).
      destruct (may p) eqn:Hm.
      * rewrite lookup_delete_eq, andb_true_r.
        destruct (bool_decide (p ∈ r)); reflexivity.
      * rewrite !andb_false_r. reflexivity.
    + assert (Hl : (if may p then delete p m else m) !! q = m !! q).
      { destruct (may p); [rewrite lookup_delete_ne by congruence |];
          reflexivity. }
      rewrite Hl.
      destruct (decide (q ∈ r)) as [Hin | Hout].
      * rewrite !bool_decide_eq_true_2; [reflexivity | right; exact Hin | exact Hin].
      * rewrite !bool_decide_eq_false_2; [reflexivity | | exact Hout].
        intros H. apply elem_of_cons in H. destruct H; [congruence | tauto].
Qed.

(** X8.  The deletion loop of [remove_repository] always runs to its end,
    whatever the paths are and whatever the operating system refuses, and
    it does nothing but remove files: the directories are untouched, every
    file on disk afterwards was there before with the same content, the
    counters and the pool are as they were, nothing is requested or
    synchronised, a listed path that the operating system lets be deleted
    is not a file afterwards, and a path it does not let be deleted is as
    it was. *)
Theorem deletion_loop_removes_listed_files env file_list w :
  exists w' evs,
    for_each file_list (remove_one env) w = (Ok tt, w')
    /\ OS.dirs (fs w') = OS.dirs (fs w)
    /\ (forall q b, OS.files (fs w') !! q = Some b ->
                    OS.files (fs w) !! q = Some b)
    /\ (forall p, In p file_list -> may_remove env p = true ->
                  OS.files (fs w') !! p = None)
    /\ (forall p, may_remove env p = false ->
                  OS.files (fs w') !! p = OS.files (fs w) !! p)
    /\ futures w' = futures w
    /\ downloaded_count w' = downloaded_count w
    /\ skipped_count w' = skipped_count w
    /\ added w w' evs
    /\ Forall (fun e => is_net e = false /\ is_sync e = false) evs.
Proof.
  destruct (deletion_loop_run env file_list w)
    as (w' & H & D & F & A & _ & C & E & evs & G & Q).
  exists w', evs. split; [exact H |]. split; [exact D |].
  split; [| split; [| split]].
  - intros q b. rewrite F, lookup_foldl_delete.
    destruct (_ && _); [discriminate | exact (fun H' => H')].
  - intros p Hp Hmay. rewrite F, lookup_foldl_delete, Hmay.
    rewrite bool_decide_eq_true_2; [reflexivity | apply list_elem_of_In; exact Hp].
  - intros p Hmay. rewrite F, lookup_foldl_delete, Hmay, andb_false_r.
    reflexivity.
  - repeat (split; [assumption |]).
    eapply Forall_impl; [exact Q |].
    intros e He. unfold quiet in He. apply andb_true_iff in He.
    destruct He as [H1 H2]. apply negb_true_iff in H1. apply negb_true_iff in H2.
    split; assumption.
Qed.

(** *** The answer of the user *)

Lemma lower_char_y c :
  lower_char c = "y"%char -> c = "y"%char \/ c = "Y"%char.
Proof.
  destruct c as [[] [] [] [] [] [] [] []]; vm_compute; intros H;
    try discriminate H; auto.
Qed.

Lemma lower_y s : lower s = "y" <-> s = "y" \/ s = "Y".
Proof.
  split.
  - destruct s as [|c [|d r]]; cbn [lower]; try discriminate.
    intros [= H]. destruct (lower_char_y c H) as [-> | ->]; auto.
  - intros [-> | ->]; reflexivity.
Qed.

(** X9.  The answer of the user is affirmative exactly when the line, once
    stripped, is the single letter y or Y; every other line, a longer word
    included, counts as no. *)
Theorem answer_is_yes_iff line :
  answer line = "y" <-> strip line = "y" \/ strip line = "Y".
Proof.
  unfold answer. rewrite <- lower_y.
  destruct (String.eqb (lower (strip line)) "y") eqn:Ey.
  - apply String.eqb_eq in Ey. cbn [orb negb]. rewrite Ey. tauto.
  - cbn [orb]. assert (Hne : lower (strip line) <> "y").
    { intros H. rewrite H in Ey. discriminate. }
    destruct (String.eqb (lower (strip line)) "n") eqn:En; cbn [negb].
    + apply String.eqb_eq in En. rewrite En. split; discriminate.
    + split; [discriminate | tauto].
Qed.
End IndexFiles.

Section Prune.
Import PyStr PackageHandler RepositoryManage.

Lemma rmtree_ok p f f' :
  OS.rmtree p f = Ok f' ->
  OS.isdir f (OS.norm_dir p) = true
  /\ OS.isdir f' (OS.norm_dir p) = false
  /\ (forall q, below (OS.norm_dir p) q = true -> OS.path_exists f' q = false)
  /\ (forall q, q <> OS.norm_dir p -> below (OS.norm_dir p) q = false ->
                OS.isdir f' q = OS.isdir f q
                /\ OS.files f' !! q = OS.files f !! q).
Proof.
  unfold OS.rmtree, below.
  destruct (OS.isdir f (OS.norm_dir p)) eqn:Hd;
    [| destruct (OS.isfile f (OS.norm_dir p)); discriminate].
  intros [= <-]. split; [reflexivity |].
  unfold OS.path_exists, OS.isdir, OS.isfile. cbn [OS.dirs OS.files].
  split; [| split].
  - apply bool_decide_eq_false. rewrite elem_of_filter. tauto.
  - intros q Hq. apply orb_false_iff. split; apply bool_decide_eq_false.
    + rewrite elem_of_filter. tauto.
    + intros [x Hx]. apply map_lookup_filter_Some in Hx. cbn in Hx. tauto.
  - intros q Hne Hq. split.
    + apply bool_decide_ext. rewrite elem_of_filter.
      split; [tauto |]. intros H. split; [| exact H]. split; [exact Hne |].
      intros Hc. exact (Bool.diff_true_false (eq_trans (eq_sym Hc) Hq)).
    + apply option_eq. intros x. rewrite map_lookup_filter_Some. cbn.
      split; [tauto |]. intros H. split; [exact H |].
      intros Hc. exact (Bool.diff_true_false (eq_trans (eq_sym Hc) Hq)).
Qed.

(** The confirmed prune, once the list is derived: the listed files are
    removed, then the tree of the last distribution. *)
Lemma remove_repository_confirmed env args line w file_list w1 :
  String.eqb (answer line) "y" = true ->
  remove_plan env args w = (Ok file_list, w1) ->
  exists w2,
    OS.dirs (fs w2) = OS.dirs (fs w)
    /\ OS.files (fs w2)
       = foldl (fun m p => if may_remove env p then delete p m else m)
               (OS.files (fs w)) file_list
    /\ remove_repository env args line w
       = match last (distributions args) with
         | Some d => fs_op (OS.rmtree (prune_root args d)) w2
         | None => (Raise UnboundLocalError, w2)
         end.
Proof.
  intros Hy Hp.
  destruct (reads_only_remove_plan env args w w eq_refl) as (_ & Q1 & _).
  rewrite Hp in Q1. cbn [snd] in Q1.
  destruct (deletion_loop_run env file_list
              (add_event (EPrint (FilesToErase (length file_list))) w1))
    as (w2 & H2 & D2 & F2 & _).
  exists w2. cbn [fs add_event] in D2, F2. rewrite Q1 in D2, F2.
  split; [exact D2 |]. split; [exact F2 |].
  unfold remove_repository, bind at 1. rewrite Hp.
  unfold bind at 1, emit, modify. rewrite Hy.
  unfold bind. rewrite H2. unfold prune_root.
  destruct (last (distributions args)); reflexivity.
Qed.

Lemma remove_repository_plan_raises env args line w e w1 :
  remove_plan env args w = (Raise e, w1) ->
  remove_repository env args line w = (Raise e, w1).
Proof. intros H. unfold remove_repository, bind. rewrite H. reflexivity. Qed.

(** X10.  When a confirmed [remove_repository] ends normally, there is a
    last distribution, its tree was a directory and is gone with all that
    lay below it, and every directory that is neither that tree nor below
    it is still there: of the trees of the distributions given, only the
    one given last is removed, together with those that lie below it. *)
Theorem prune_removes_last_distribution_only env args line w w' :
  String.eqb (answer line) "y" = true ->
  remove_repository env args line w = (Ok tt, w') ->
  exists d,
    last (distributions args) = Some d
    /\ OS.isdir (fs w) (OS.norm_dir (prune_root args d)) = true
    /\ OS.isdir (fs w') (OS.norm_dir (prune_root args d)) = false
    /\ (forall q, below (OS.norm_dir (prune_root args d)) q = true ->
                  OS.path_exists (fs w') q = false)
    /\ (forall q, OS.isdir (fs w) q = true ->
                  q <> OS.norm_dir (prune_root args d) ->
                  below (OS.norm_dir (prune_root args d)) q = false ->
                  OS.isdir (fs w') q = true).
Proof.
  intros Hy Hrun.
  destruct (remove_plan env args w) as [[file_list|e] w1] eqn:Hp.
  2: { rewrite (remove_repository_plan_raises _ _ _ _ _ _ Hp) in Hrun. discriminate. }
  destruct (remove_repository_confirmed env args line w file_list w1 Hy Hp)
    as (w2 & D2 & F2 & Heq).
  rewrite Heq in Hrun.
  destruct (last (distributions args)) as [d|]; [| discriminate].
  exists d. split; [reflexivity |].
  unfold fs_op in Hrun.
  destruct (OS.rmtree (prune_root args d) (fs w2)) as [f'|e] eqn:Hrm; [| discriminate].
  injection Hrun as <-. cbn [fs set_fs].
  destruct (rmtree_ok _ _ _ Hrm) as (R1 & R2 & R3 & R4).
  assert (Hdir : forall q, OS.isdir (fs w2) q = OS.isdir (fs w) q).
  { intros q. unfold OS.isdir. rewrite D2. reflexivity. }
  split; [rewrite <- Hdir; exact R1 |]. split; [exact R2 |]. split; [exact R3 |].
  intros q Hq Hne Hb. destruct (R4 q Hne Hb) as [-> _]. rewrite Hdir. exact Hq.
Qed.

End Prune.

(** ** Further properties: transfers and the pool *)

Section Transfers.
Import PyStr RepositoryManage.

(** Every way a call of [download_file] can end *)
Lemma download_file_cases env path full_path overwrite w r w' :
  Downloader.download_file env path full_path overwrite w = (r, w') ->
  (w' = w /\ is_ok r = false)
  \/ (exists w1,
        OS.path_exists (fs w1) (OS.dirname full_path) = true
        /\ OS.files (fs w1) = OS.files (fs w)
        /\ OS.dirs (fs w) ⊆ OS.dirs (fs w1)
        /\ downloaded_files w1 = downloaded_files w
        /\ downloaded_count w1 = downloaded_count w
        /\ skipped_count w1 = skipped_count w
        /\ futures w1 = futures w
        /\ fetch_outcome env path full_path overwrite w1 r w').
Proof.
  intros H. destruct (parent_ready (fs w) full_path) eqn:Hready.
  - right.
    destruct (ensure_folder_ready full_path w Hready)
      as (w1 & Hens & Hex & Hfiles & Hdirs & Hdf & Hdc & Hsc & Hfu & _).
    rewrite (download_file_split env _ _ _ _ _ Hens) in H.
    apply fetch_unless_present_outcome in H.
    exists w1. repeat (split; [assumption |]). exact H.
  - left. destruct (ensure_folder_not_ready full_path w Hready) as [e He].
    rewrite (download_file_stuck env _ _ _ _ _ He) in H.
    injection H as <- <-. split; reflexivity.
Qed.

(** X11.  [download_file] changes the downloaded count only when it has
    written the body of an answer whose status is not an HTTP error to the
    destination: then the call ended normally, the count grew by one, the
    destination was appended to the list and the skipped count is as it
    was. *)
Theorem download_counted_only_when_stored
        env path full_path overwrite w r w' :
  Downloader.download_file env path full_path overwrite w = (r, w') ->
  downloaded_count w' <> downloaded_count w ->
  exists status body,
    http_get env path = Response status body
    /\ (400 <=? status)%nat && (status <? 600)%nat = false
    /\ r = Ok tt
    /\ OS.files (fs w') !! full_path = Some body
    /\ downloaded_count w' = downloaded_count w + 1
    /\ downloaded_files w' = downloaded_files w ++ [full_path]
    /\ skipped_count w' = skipped_count w.
Proof.
  intros Hrun Hne.
  destruct (download_file_cases _ _ _ _ _ _ _ Hrun)
    as [[-> _] | (w1 & _ & Hfiles & _ & Hdf & Hdc & Hsc & _ & Hout)];
    [congruence |].
  inversion Hout; subst; cbn in Hne; try congruence.
  match goal with H : OS.write_file _ _ _ = Ok _ |- _ =>
    destruct (write_file_ok _ _ _ _ H) as [_ Hw] end.
  exists status, body. cbn.
  repeat (split; [assumption || reflexivity || congruence |]).
  split; [rewrite Hw; apply lookup_insert_eq |].
  repeat (split; [congruence |]). congruence.
Qed.

Lemma download_file_changes env path full_path overwrite w r w' :
  Downloader.download_file env path full_path overwrite w = (r, w') ->
  futures w' = futures w
  /\ OS.dirs (fs w) ⊆ OS.dirs (fs w')
  /\ (forall q, q <> full_path ->
                OS.files (fs w') !! q = OS.files (fs w) !! q)
  /\ downloaded_count w <= downloaded_count w'
  /\ skipped_count w <= skipped_count w'
  /\ downloaded_count w' + skipped_count w'
     <= downloaded_count w + skipped_count w + 1
  /\ (is_ok r = false ->
      downloaded_count w' = downloaded_count w
      /\ skipped_count w' = skipped_count w
      /\ downloaded_files w' = downloaded_files w).
Proof.
  intros Hrun.
  destruct (download_file_cases _ _ _ _ _ _ _ Hrun)
    as [[-> _] | (w1 & _ & Hfiles & Hdirs & Hdf & Hdc & Hsc & Hfu & Hout)].
  { repeat split; try reflexivity; try lia. }
  inversion Hout; subst; cbn;
    try (split; [exact Hfu |]; split; [exact Hdirs |];
         split; [intros q _; rewrite Hfiles; reflexivity |];
         repeat split; try discriminate; try congruence; lia);
    match goal with H : OS.write_file _ _ _ = Ok _ |- _ =>
      destruct (write_file_ok _ _ _ _ H) as [Hd Hw] end;
    (split; [exact Hfu |]); (split; [rewrite Hd; exact Hdirs |]);
    (split; [intros q Hq; rewrite Hw, lookup_insert_ne by congruence;
             rewrite Hfiles; reflexivity |]);
    repeat split; try discriminate; try congruence; lia.
Qed.


(** A destination that is on disk with its directory is skipped. *)
Lemma skip_when_present env path full_path w :
  OS.isfile (fs w) full_path = true ->
  OS.path_exists (fs w) (OS.dirname full_path) = true ->
  Downloader.download_file env path full_path false w
  = (Ok tt,
     set_skipped_count (skipped_count w + 1)
       (add_event
          (ELog Debug (AlreadyExistsSkipping (OS.basename full_path))) w)).
Proof.
  intros Hf Hd.
  unfold Downloader.download_file, Downloader.ensure_folder,
    Downloader.fetch_unless_present, bind, get_world.
  rewrite Hd. cbn [negb]. unfold ret. cbn [fs].
  unfold OS.path_exists. rewrite Hf, orb_true_r. reflexivity.
Qed.

(** X13.  After a call of [download_file] that counted a download, the
    same call with overwrite=False is skipped: it ends normally, adds one
    to the skipped count, logs the skip and nothing else, and leaves the
    disk, the downloaded count and the list as they were. *)
Theorem download_then_skip env path full_path overwrite w r w1 :
  Downloader.download_file env path full_path overwrite w = (r, w1) ->
  downloaded_count w1 = downloaded_count w + 1 ->
  exists w2,
    Downloader.download_file env path full_path false w1 = (Ok tt, w2)
    /\ skipped_count w2 = skipped_count w1 + 1
    /\ downloaded_count w2 = downloaded_count w1
    /\ downloaded_files w2 = downloaded_files w1
    /\ fs w2 = fs w1
    /\ added w1 w2
         [ELog Debug (AlreadyExistsSkipping (OS.basename full_path))].
Proof.
  intros Hrun Hcount.
  destruct (download_file_cases _ _ _ _ _ _ _ Hrun)
    as [[-> _] | (w0 & Hex & Hfiles & _ & Hdf & Hdc & Hsc & _ & Hout)];
    [lia |].
  inversion Hout; subst; cbn in Hcount; try lia.
  match goal with H : OS.write_file _ _ _ = Ok _ |- _ =>
    destruct (write_file_ok _ _ _ _ H) as [Hd Hw] end.
  eexists. split.
  { apply skip_when_present; cbn [fs set_downloaded_count set_downloaded_files
                                    add_event set_fs].
    - unfold OS.isfile. apply bool_decide_eq_true. rewrite Hw.
      rewrite lookup_insert_eq. eauto.
    - eapply path_exists_mono; [| | exact Hex].
      + rewrite Hd. reflexivity.
      + intros q Hq. rewrite Hw. apply lookup_insert_is_Some'. right. exact Hq. }
  cbn. repeat split.
Qed.


Lemma filter_sync_none l :
  Forall (fun e => is_sync e = false) l -> List.filter is_sync l = [].
Proof.
  induction 1 as [|e l He _ IH]; [reflexivity |]. cbn. rewrite He. exact IH.
Qed.

Lemma download_directory_run env args path w :
  exists w',
    Downloader.download_directory env args path w = (Ok tt, w')
    /\ fs w'
       = snd (wget env (rootpath args +:+ "/" +:+ Downloader.first_component path)
                   "index.html*" (proto args +:+ "://" +:+ path) (fs w))
    /\ downloaded_count w' = downloaded_count w
    /\ skipped_count w' = skipped_count w
    /\ futures w' = futures w
    /\ length (sync_events w') = length (sync_events w) + 1
    /\ downloaded_files w'
       = downloaded_files w
         ++ (if Nat.eqb (fst (wget env (rootpath args +:+ "/"
                                         +:+ Downloader.first_component path)
                                   "index.html*"
                                   (proto args +:+ "://" +:+ path) (fs w))) 0
             then OS.walk_files (rootpath args +:+ "/" +:+ path) (fs w')
             else []).
Proof.
  unfold Downloader.download_directory, bind, emit, modify, get_world.
  cbn [fs add_event].
  destruct (wget env _ _ _ (fs w)) as [code f'] eqn:Hw. cbn [fst snd].
  assert (Hsync : forall l,
            Forall (fun e => is_sync e = false) l ->
            length (List.filter is_sync
                      ((trace w ++ [ESync (rootpath args +:+ "/" +:+ Downloader.first_component path) "index.html*" (proto args +:+ "://" +:+ path)]) ++ l))
            = length (sync_events w) + 1).
  { intros l Hl. unfold sync_events. rewrite !List.filter_app.
    rewrite !length_app. rewrite (filter_sync_none l Hl). cbn. lia. }
  destruct (Nat.eqb code 0).
  - unfold Downloader._add_downloaded_files_from_directory, bind, get_world, modify.
    eexists. split; [reflexivity |]. cbn.
    repeat (split; [reflexivity |]). split; [| reflexivity].
    apply Hsync. repeat constructor.
  - destruct (Nat.eqb code 8);
      (eexists; split; [reflexivity |]; cbn;
       repeat (split; [reflexivity |]);
       split; [apply Hsync; repeat constructor
              | rewrite app_nil_r; reflexivity]).
Qed.

(** X15.  [download_directory] always ends normally, whatever [wget]
    returns: it runs [wget] once, leaves on disk what [wget] left, changes
    neither counter nor the pool, and extends the list of downloaded files
    by the files found under the path when the return code is 0 and by
    nothing otherwise. *)
Theorem download_directory_never_counts env args path w :
  exists w',
    Downloader.download_directory env args path w = (Ok tt, w')
    /\ fs w'
       = snd (wget env (rootpath args +:+ "/" +:+ Downloader.first_component path)
                   "index.html*" (proto args +:+ "://" +:+ path) (fs w))
    /\ downloaded_count w' = downloaded_count w
    /\ skipped_count w' = skipped_count w
    /\ futures w' = futures w
    /\ length (sync_events w') = length (sync_events w) + 1
    /\ downloaded_files w'
       = downloaded_files w
         ++ (if Nat.eqb (fst (wget env (rootpath args +:+ "/"
                                         +:+ Downloader.first_component path)
                                   "index.html*"
                                   (proto args +:+ "://" +:+ path) (fs w))) 0
             then OS.walk_files (rootpath args +:+ "/" +:+ path) (fs w')
             else []).
Proof. apply download_directory_run. Qed.

(** X16.  The pool gives one result per task and submits nothing; the
    counters never decrease, and the downloads counted, the skips counted
    and the tasks that raised together never exceed the number of tasks. *)
Theorem pool_counts_at_most_its_tasks env ts : forall w,
  let '(rs, w') := run_pool env ts w in
  length rs = length ts
  /\ futures w' = futures w
  /\ downloaded_count w <= downloaded_count w'
  /\ skipped_count w <= skipped_count w'
  /\ (downloaded_count w' - downloaded_count w)
     + (skipped_count w' - skipped_count w)
     + length (List.filter (fun r => negb (is_ok r)) rs)
     <= length ts.
Proof.
  induction ts as [|t rest IH]; intros w; cbn [run_pool].
  - cbn. repeat split; lia.
  - unfold run_task.
    destruct (Downloader.download_file env (t_path t) (t_full_path t)
                (t_overwrite t) w) as [r w1] eqn:Hrun.
    destruct (download_file_changes _ _ _ _ _ _ _ Hrun)
      as (F1 & _ & _ & F4 & F5 & F6 & F7).
    specialize (IH w1). destruct (run_pool env rest w1) as [rs w2].
    destruct IH as (I1 & I2 & I3 & I4 & I5).
    cbn [length List.filter]. split; [lia |]. split; [congruence |].
    split; [lia |]. split; [lia |].
    destruct r as [[]|e]; cbn [is_ok negb length].
    + lia.
    + destruct (F7 eq_refl) as (G1 & G2 & _). lia.
Qed.
End Transfers.

(** ** Further properties: the shape of a plan *)

Section PlanShape.
Import PyStr PackageHandler RepositoryManage.

Lemma plans_exact {A} (c : M A) f s f' s' :
  plans c f s -> f = f' -> s = s' -> plans c f' s'.
Proof. intros H <- <-. exact H. Qed.

Lemma plans_ret {A} (a : A) : plans (ret a) 0 0.
Proof. intros w x w' [= <- <-]. split; lia. Qed.

Lemma plans_bind {A B} (c : M A) (k : A -> M B) f1 s1 f2 s2 :
  plans c f1 s1 -> (forall a, plans (k a) f2 s2) ->
  plans (bind c k) (f1 + f2) (s1 + s2).
Proof.
  intros Hc Hk w x w'. unfold bind.
  destruct (c w) as [[a|e] w1] eqn:E; [| discriminate].
  intros H. destruct (Hc _ _ _ E) as [A1 A2]. destruct (Hk a _ _ _ H) as [B1 B2].
  split; lia.
Qed.

Lemma filter_sync_quiet evs :
  Forall (fun e => quiet e = true) evs -> List.filter is_sync evs = [].
Proof.
  intros H. apply filter_sync_none. eapply Forall_impl; [exact H |].
  intros e He. unfold quiet in He. apply andb_true_iff in He as [_ He].
  apply negb_true_iff. exact He.
Qed.

Lemma plans_reads_only {A} (c : M A) : reads_only c -> plans c 0 0.
Proof.
  intros Hc w x w' H. destruct (Hc w w eq_refl) as [_ Hq]. rewrite H in Hq.
  destruct Hq as (_ & Hf & _ & _ & _ & evs & Ht & Hquiet). cbn [snd] in *.
  unfold forced_tasks, sync_events. rewrite Hf, Ht, List.filter_app.
  rewrite (filter_sync_quiet evs Hquiet), app_nil_r. split; lia.
Qed.

Lemma plans_submit_forced path full_path : plans (submit path full_path true) 1 0.
Proof.
  intros w x w' [= _ <-]. unfold forced_tasks, sync_events.
  cbn [futures set_futures trace]. rewrite List.filter_app, length_app.
  split; [reflexivity | lia].
Qed.

Lemma plans_download_directory env args path :
  plans (Downloader.download_directory env args path) 0 1.
Proof.
  intros w x w' H.
  destruct (download_directory_run env args path w)
    as (w0 & H0 & _ & _ & _ & Hf & Hs & _).
  rewrite H0 in H. injection H as _ <-.
  unfold forced_tasks. rewrite Hf. split; [lia | exact Hs].
Qed.

Lemma plans_mirror_packages args pkgs link :
  plans (mirror_packages args pkgs link) 0 0.
Proof.
  intros w x w'. rewrite mirror_packages_run. intros [= _ <-].
  unfold forced_tasks, sync_events. cbn [futures set_futures trace].
  rewrite List.filter_app, length_app.
  replace (List.filter t_overwrite (map (package_task args) pkgs)) with (@nil task);
    [cbn; split; lia |].
  induction pkgs as [|p r IH]; [reflexivity | exact IH].
Qed.

Lemma plans_fold_loop {A} (body : list string -> A -> M (list string)) f s xs :
  (forall acc x, plans (body acc x) f s) ->
  forall acc, plans (fold_loop body xs acc) (length xs * f) (length xs * s).
Proof.
  intros Hb. induction xs as [|x r IH]; intros acc; cbn [fold_loop length].
  - apply plans_ret.
  - eapply plans_exact; [apply plans_bind; [apply Hb | exact IH] | lia | lia].
Qed.

Lemma plans_for_each {A} (body : A -> M unit) f s xs :
  (forall x, plans (body x) f s) ->
  plans (for_each xs body) (length xs * f) (length xs * s).
Proof.
  intros Hb. induction xs as [|x r IH]; cbn [for_each length].
  - apply plans_ret.
  - eapply plans_exact; [apply plans_bind; [apply Hb | intros _; exact IH] | lia | lia].
Qed.

Lemma plans_mirror_arch env args d c acc a :
  plans (mirror_arch env args d c acc a) 1 2.
Proof.
  unfold mirror_arch, mirror_arch_sync, mirror_arch_packages.
  eapply plans_exact.
  - apply plans_bind.
    + apply plans_bind; [apply plans_submit_forced | intros _].
      apply plans_bind; [apply plans_download_directory | intros _].
      apply plans_download_directory.
    + intros _.
      apply plans_bind;
        [apply plans_reads_only, reads_only_list_files_in_folder | intros pack_files].
      apply plans_bind; [apply plans_reads_only, reads_only_find | intros info].
      apply plans_bind; [apply plans_reads_only, reads_only_lift | intros n].
      apply plans_bind; [apply plans_reads_only, reads_only_lift | intros pkgs].
      apply plans_mirror_packages.
  - reflexivity.
  - reflexivity.
Qed.

Lemma plans_mirror_plan env args :
  plans (mirror_plan env args)
    (length (distributions args)
     * (3 + length (components args) * length (architectures args)))
    (length (distributions args)
     * (length (components args) * (2 + 2 * length (architectures args)))).
Proof.
  unfold mirror_plan. apply plans_fold_loop. intros acc d.
  unfold mirror_distribution.
  eapply plans_exact.
  - apply plans_bind.
    + apply (plans_for_each _ 1 0). intros cert. apply plans_submit_forced.
    + intros _. apply (plans_fold_loop _
                         (length (architectures args)) (2 + 2 * length (architectures args))).
      intros acc' c. unfold mirror_component.
      eapply plans_exact.
      * apply plans_bind; [apply plans_download_directory | intros _].
        apply plans_bind; [apply plans_download_directory | intros _].
        apply (plans_fold_loop _ 1 2). intros acc'' a. apply plans_mirror_arch.
      * lia.
      * lia.
  - cbn [length]. lia.
  - cbn [length]. lia.
Qed.

(** X17.  When the planning of [mirror_repository] ends normally, it has
    submitted three forced tasks per distribution and one more per
    distribution, component and architecture, and it has run [wget] twice
    per distribution and component and twice more per architecture. *)
Theorem mirror_plan_shape env args w link_list w' :
  mirror_plan env args w = (Ok link_list, w') ->
  length (forced_tasks w')
  = length (forced_tasks w)
    + length (distributions args)
      * (3 + length (components args) * length (architectures args))
  /\ length (sync_events w')
     = length (sync_events w)
       + length (distributions args)
         * (length (components args) * (2 + 2 * length (architectures args))).
Proof. apply plans_mirror_plan. Qed.
End PlanShape.

Section SecondRun.
Import PyStr PackageHandler RepositoryManage.

(** X18.  A pool whose tasks all have overwrite=False and a destination
    that is a file in an existing directory skips every task: every result
    is normal, no request is made, the disk, the downloaded count and the
    list stay as they were, and the skipped count does not decrease, grows
    when there is a task, and grows by no more than the number of tasks. *)
Theorem pool_skips_present_files env ts : forall w,
  Forall (fun t => t_overwrite t = false
                   /\ OS.isfile (fs w) (t_full_path t) = true
                   /\ OS.path_exists (fs w) (OS.dirname (t_full_path t)) = true)
         ts ->
  exists w',
    run_pool env ts w = (map (fun _ => Ok tt) ts, w')
    /\ fs w' = fs w
    /\ skipped_count w <= skipped_count w'
    /\ skipped_count w' <= skipped_count w + length ts
    /\ (ts <> [] -> skipped_count w < skipped_count w')
    /\ downloaded_count w' = downloaded_count w
    /\ downloaded_files w' = downloaded_files w
    /\ exists evs, added w w' evs /\ Forall (fun e => is_net e = false) evs.
Proof.
  induction ts as [|t rest IH]; intros w H.
  - exists w. cbn. repeat (split; [reflexivity || lia || congruence |]).
    exists []. split; [apply added_refl | constructor].
  - apply Forall_cons in H. destruct H as [(Ho & Hf & Hd) Hrest].
    cbn [run_pool map]. unfold run_task. rewrite Ho.
    rewrite (skip_when_present env _ _ w Hf Hd).
    destruct (IH (set_skipped_count (skipped_count w + 1)
                    (add_event (ELog Debug
                       (AlreadyExistsSkipping (OS.basename (t_full_path t)))) w)))
      as (w' & Hrun & F & S1 & S2 & _ & D & DF & evs & Ha & Hn).
    { exact Hrest. }
    rewrite Hrun. exists w'. split; [reflexivity |].
    cbn in F, S1, S2, D, DF. split; [exact F |]. cbn [length].
    split; [lia |]. split; [lia |]. split; [intros _; lia |].
    split; [exact D |]. split; [exact DF |].
    exists (ELog Debug (AlreadyExistsSkipping (OS.basename (t_full_path t))) :: evs).
    split.
    + unfold added in *. cbn in Ha. rewrite Ha, <- app_assoc. reflexivity.
    + constructor; [reflexivity | exact Hn].
Qed.
End SecondRun.

(** ** Instances of the further properties *)

Section Instances.
Import PyStr PyDict PackageHandler Blocks RepositoryManage.

Lemma pair_of_run {A} (x : result A * World) r :
  fst x = r -> x = (r, snd x).
Proof. intros <-. apply surjective_pairing. Qed.

Lemma parse_packages_file_agrees_witness :
  let w := Scenario.world_of Scenario.fs_plain in
  let p := "/r/h/debian/dists/stable/main/binary-amd64/Packages" in
  OS.read_file p (fs w) = Ok Scenario.index_text
  /\ text_decode Scenario.env_up Scenario.index_text = Some Scenario.index_text
  /\ only_lf Scenario.index_text = true
  /\ parse_packages_file Scenario.env_up p w
     = (parse_packages_data Scenario.index_text, w).
Proof.
  cbv zeta.
  split; [vm_compute; reflexivity |].
  split; [reflexivity |].
  split; [vm_compute; reflexivity |].
  apply (parse_packages_file_agrees Scenario.env_up
           "/r/h/debian/dists/stable/main/binary-amd64/Packages"
           (Scenario.world_of Scenario.fs_plain)
           Scenario.index_text Scenario.index_text).
  - vm_compute. reflexivity.
  - reflexivity.
  - vm_compute. reflexivity.
Defined.

Lemma parse_lines_ignores_margins_witness :
  map strip ["  Package: a  "; " more"] = map strip ["Package: a"; "more   "]
  /\ parse_lines ["  Package: a  "; " more"]
     = parse_lines ["Package: a"; "more   "].
Proof.
  split; [vm_compute; reflexivity |].
  apply (proj1 parse_lines_ignores_margins). vm_compute. reflexivity.
Defined.

Lemma parsed_records_are_sound_witness :
  forallb (fun l => negb (has_separator l)) (splitlines "garbage") = true
  /\ parse_packages_data "garbage" = Ok [].
Proof.
  split; [vm_compute; reflexivity |].
  destruct (parsed_records_are_sound "garbage") as (recs & Hp & _ & Hn).
  rewrite Hp. f_equal. apply Hn. vm_compute. reflexivity.
Defined.

Lemma key_line_splits_at_first_separator_witness :
  blank " Version: 1.0: beta " = false
  /\ has_separator " Version: 1.0: beta " = true
  /\ exists k v,
       parse_line (mk_pstate [] []) " Version: 1.0: beta "
       = Ok (mk_pstate [] (setitem k v []))
       /\ k +:+ ": " +:+ v = strip " Version: 1.0: beta "
       /\ contains ": " k = false
       /\ v <> "".
Proof.
  split; [vm_compute; reflexivity |].
  split; [vm_compute; reflexivity |].
  apply (key_line_splits_at_first_separator (mk_pstate [] [])
           " Version: 1.0: beta ");
    vm_compute; reflexivity.
Defined.

Lemma find_reads_first_index_only_witness :
  let w := Scenario.world_of Scenario.fs_plain in
  let d := "/r/h/debian/dists/stable/main/binary-amd64/" in
  Forall (fun f => is_packages_file f = false) [d +:+ "Release"]
  /\ is_packages_file (d +:+ "Packages") = true
  /\ find_and_extract_packages Scenario.env_up
       ([d +:+ "Release"] ++ (d +:+ "Packages") :: [d +:+ "Packages.gz"]) w
     = find_and_extract_packages Scenario.env_up [d +:+ "Packages"] w.
Proof.
  cbv zeta.
  assert (H : Forall (fun f => is_packages_file f = false)
                ["/r/h/debian/dists/stable/main/binary-amd64/" +:+ "Release"]).
  { constructor; [vm_compute; reflexivity | constructor]. }
  split; [exact H |].
  split; [vm_compute; reflexivity |].
  apply (find_reads_first_index_only Scenario.env_up _ _ _ _ H).
  vm_compute. reflexivity.
Defined.

Lemma find_returns_none_iff_no_index_witness :
  let w := Scenario.world_of Scenario.fs_plain in
  Forall (fun f => is_packages_file f = false) ["/d/Release"; "/d/Packages.bz2"]
  /\ fst (find_and_extract_packages Scenario.env_up
            ["/d/Release"; "/d/Packages.bz2"] w) = Ok None.
Proof.
  cbv zeta.
  assert (H : Forall (fun f => is_packages_file f = false)
                ["/d/Release"; "/d/Packages.bz2"]).
  { repeat constructor. }
  split; [exact H |].
  apply (proj2 (find_returns_none_iff_no_index Scenario.env_up
                  ["/d/Release"; "/d/Packages.bz2"]
                  (Scenario.world_of Scenario.fs_plain))).
  exact H.
Defined.

Lemma list_files_in_folder_is_safe_witness :
  let w := Scenario.world_of Scenario.fs_empty in
  OS.isdir (fs w) (OS.norm_dir "/r/h/debian/dists/stable/main/binary-amd64/")
  = false
  /\ FileManager.list_files_in_folder
       "/r/h/debian/dists/stable/main/binary-amd64/" w
     = (Ok [], add_event (EPrint ListingFailed) w).
Proof.
  cbv zeta. split; [vm_compute; reflexivity |].
  destruct (list_files_in_folder_is_safe
              "/r/h/debian/dists/stable/main/binary-amd64/"
              (Scenario.world_of Scenario.fs_empty))
    as (l & w' & Hrun & _ & _ & _ & Hmiss).
  destruct Hmiss as [-> ->]; [vm_compute; reflexivity |]. exact Hrun.
Defined.

Lemma deletion_loop_removes_listed_files_witness :
  let w := Scenario.world_of Scenario.fs_mirrored in
  let index := "/r/h/debian/dists/stable/main/binary-amd64/Packages" in
  let file_list := ["/r/h/debian/pool/a.deb"; "/nowhere"; index] in
  In "/r/h/debian/pool/a.deb" file_list
  /\ may_remove Scenario.env_locked "/r/h/debian/pool/a.deb" = true
  /\ may_remove Scenario.env_locked index = false
  /\ exists w',
       for_each file_list (remove_one Scenario.env_locked) w = (Ok tt, w')
       /\ OS.dirs (fs w') = OS.dirs (fs w)
       /\ OS.files (fs w') !! "/r/h/debian/pool/a.deb" = None
       /\ OS.files (fs w') !! index = Some Scenario.index_text
       /\ List.filter (fun e => match e with EPrint _ => true | _ => false end)
                      (trace w')
          = [EPrint (FileNotFound "/nowhere"); EPrint (PermissionDenied index)].
Proof.
  cbv zeta.
  assert (Hin : In "/r/h/debian/pool/a.deb"
                  ["/r/h/debian/pool/a.deb"; "/nowhere";
                   "/r/h/debian/dists/stable/main/binary-amd64/Packages"])
    by (left; reflexivity).
  split; [exact Hin |]. split; [reflexivity |]. split; [reflexivity |].
  destruct (deletion_loop_removes_listed_files Scenario.env_locked
              ["/r/h/debian/pool/a.deb"; "/nowhere";
               "/r/h/debian/dists/stable/main/binary-amd64/Packages"]
              (Scenario.world_of Scenario.fs_mirrored))
    as (w' & evs & Hrun & Hdirs & _ & Hgone & Hkept & _).
  exists w'. split; [exact Hrun |]. split; [exact Hdirs |].
  split; [apply Hgone; [exact Hin | reflexivity] |].
  split; [rewrite Hkept by reflexivity; vm_compute; reflexivity |].
  assert (Hw : w' = snd (for_each
                 ["/r/h/debian/pool/a.deb"; "/nowhere";
                  "/r/h/debian/dists/stable/main/binary-amd64/Packages"]
                 (remove_one Scenario.env_locked)
                 (Scenario.world_of Scenario.fs_mirrored)))
    by (rewrite Hrun; reflexivity).
  rewrite Hw. vm_compute. reflexivity.
Defined.

Lemma answer_is_yes_iff_witness :
  (strip " Y " = "y" \/ strip " Y " = "Y") /\ answer " Y " = "y".
Proof.
  assert (H : strip " Y " = "y" \/ strip " Y " = "Y")
    by (right; vm_compute; reflexivity).
  split; [exact H |]. apply (proj2 (answer_is_yes_iff " Y ")). exact H.
Defined.

Lemma prune_removes_last_distribution_only_witness :
  let run := remove_repository Scenario.env_up Scenario.args_two_dists "y"
               (Scenario.world_of Scenario.fs_two_dists) in
  String.eqb (answer "y") "y" = true
  /\ run = (Ok tt, snd run)
  /\ exists d,
       last (distributions Scenario.args_two_dists) = Some d
       /\ OS.isdir (fs (snd run))
            (OS.norm_dir (prune_root Scenario.args_two_dists d)) = false
       /\ (OS.isdir Scenario.fs_two_dists "/r/h/debian/dists/oldstable" = true ->
           "/r/h/debian/dists/oldstable"
           <> OS.norm_dir (prune_root Scenario.args_two_dists d) ->
           below (OS.norm_dir (prune_root Scenario.args_two_dists d))
                 "/r/h/debian/dists/oldstable" = false ->
           OS.isdir (fs (snd run)) "/r/h/debian/dists/oldstable" = true).
Proof.
  cbv zeta.
  assert (Hrun : remove_repository Scenario.env_up Scenario.args_two_dists "y"
                   (Scenario.world_of Scenario.fs_two_dists)
                 = (Ok tt,
                    snd (remove_repository Scenario.env_up
                           Scenario.args_two_dists "y"
                           (Scenario.world_of Scenario.fs_two_dists)))).
  { apply pair_of_run. vm_compute. reflexivity. }
  split; [vm_compute; reflexivity |]. split; [exact Hrun |].
  destruct (prune_removes_last_distribution_only Scenario.env_up
              Scenario.args_two_dists "y"
              (Scenario.world_of Scenario.fs_two_dists) _
              ltac:(vm_compute; reflexivity) Hrun)
    as (d & Hd & _ & Hgone & _ & Hkept).
  exists d. split; [exact Hd |]. split; [exact Hgone |].
  apply Hkept.
Defined.

Lemma download_counted_only_when_stored_witness :
  let run := Downloader.download_file Scenario.env_up
               "http://h/debian/pool/a.deb" "/r/h/debian/pool/a.deb" false
               (Scenario.world_of Scenario.fs_plain) in
  run = (fst run, snd run)
  /\ downloaded_count (snd run) <> 0
  /\ exists status body,
       http_get Scenario.env_up "http://h/debian/pool/a.deb"
       = Response status body
       /\ fst run = Ok tt
       /\ OS.files (fs (snd run)) !! "/r/h/debian/pool/a.deb" = Some body
       /\ downloaded_count (snd run) = 0 + 1.
Proof.
  cbv zeta.
  pose proof (surjective_pairing
                (Downloader.download_file Scenario.env_up
                   "http://h/debian/pool/a.deb" "/r/h/debian/pool/a.deb" false
                   (Scenario.world_of Scenario.fs_plain))) as Hrun.
  assert (Hne : downloaded_count
                  (snd (Downloader.download_file Scenario.env_up
                          "http://h/debian/pool/a.deb" "/r/h/debian/pool/a.deb"
                          false (Scenario.world_of Scenario.fs_plain))) <> 0).
  { vm_compute. discriminate. }
  split; [exact Hrun |]. split; [exact Hne |].
  destruct (download_counted_only_when_stored _ _ _ _ _ _ _ Hrun Hne)
    as (status & body & H1 & _ & H3 & H4 & H5 & _).
  exists status, body. repeat split; assumption.
Defined.


Lemma download_then_skip_witness :
  let w := Scenario.world_of Scenario.fs_plain in
  let run := Downloader.download_file Scenario.env_up
               "http://h/debian/pool/a.deb" "/r/h/debian/pool/a.deb" false w in
  run = (fst run, snd run)
  /\ downloaded_count (snd run) = downloaded_count w + 1
  /\ exists w2,
       Downloader.download_file Scenario.env_up
         "http://h/debian/pool/a.deb" "/r/h/debian/pool/a.deb" false (snd run)
       = (Ok tt, w2)
       /\ skipped_count w2 = skipped_count (snd run) + 1
       /\ fs w2 = fs (snd run).
Proof.
  cbv zeta.
  pose proof (surjective_pairing
                (Downloader.download_file Scenario.env_up
                   "http://h/debian/pool/a.deb" "/r/h/debian/pool/a.deb" false
                   (Scenario.world_of Scenario.fs_plain))) as Hrun.
  assert (Hc : downloaded_count
                 (snd (Downloader.download_file Scenario.env_up
                         "http://h/debian/pool/a.deb" "/r/h/debian/pool/a.deb"
                         false (Scenario.world_of Scenario.fs_plain)))
               = downloaded_count (Scenario.world_of Scenario.fs_plain) + 1).
  { vm_compute. reflexivity. }
  split; [exact Hrun |]. split; [exact Hc |].
  destruct (download_then_skip _ _ _ _ _ _ _ Hrun Hc)
    as (w2 & H1 & H2 & _ & _ & H5 & _).
  exists w2. repeat split; assumption.
Defined.


Lemma mirror_plan_shape_witness :
  let w := set_futures [] (Scenario.world_of Scenario.fs_plain) in
  let run := mirror_plan Scenario.env_up Scenario.args0 w in
  run = (Ok ["/r/h/debian/pool/a.deb"; "/r/h/debian/None"], snd run)
  /\ length (forced_tasks (snd run)) = 0 + 1 * (3 + 1 * 1)
  /\ length (sync_events (snd run)) = 0 + 1 * (1 * (2 + 2 * 1)).
Proof.
  cbv zeta.
  assert (Hrun : mirror_plan Scenario.env_up Scenario.args0
                   (set_futures [] (Scenario.world_of Scenario.fs_plain))
                 = (Ok ["/r/h/debian/pool/a.deb"; "/r/h/debian/None"],
                    snd (mirror_plan Scenario.env_up Scenario.args0
                           (set_futures [] (Scenario.world_of Scenario.fs_plain))))).
  { apply pair_of_run. vm_compute. reflexivity. }
  split; [exact Hrun |].
  exact (mirror_plan_shape _ _ _ _ _ Hrun).
Defined.

Lemma pool_skips_present_files_witness :
  let w := Scenario.world_of Scenario.fs_mirrored in
  let ts :=
    [mk_task "http://h/debian/pool/a.deb" "/r/h/debian/pool/a.deb" false;
     mk_task "http://h/debian/dists/stable/main/binary-amd64/Packages"
             "/r/h/debian/dists/stable/main/binary-amd64/Packages" false;
     mk_task "http://h/debian/pool/a.deb" "/r/h/debian/pool/a.deb" false] in
  Forall (fun t => t_overwrite t = false
                   /\ OS.isfile (fs w) (t_full_path t) = true
                   /\ OS.path_exists (fs w) (OS.dirname (t_full_path t)) = true)
         ts
  /\ exists w',
       run_pool Scenario.env_up ts w = ([Ok tt; Ok tt; Ok tt], w')
       /\ fs w' = fs w
       /\ skipped_count w < skipped_count w'
       /\ skipped_count w' <= skipped_count w + 3
       /\ downloaded_count w' = downloaded_count w.
Proof.
  cbv zeta.
  assert (H : Forall (fun t => t_overwrite t = false
                   /\ OS.isfile (fs (Scenario.world_of Scenario.fs_mirrored))
                        (t_full_path t) = true
                   /\ OS.path_exists (fs (Scenario.world_of Scenario.fs_mirrored))
                        (OS.dirname (t_full_path t)) = true)
                [mk_task "http://h/debian/pool/a.deb" "/r/h/debian/pool/a.deb" false;
                 mk_task "http://h/debian/dists/stable/main/binary-amd64/Packages"
                         "/r/h/debian/dists/stable/main/binary-amd64/Packages" false;
                 mk_task "http://h/debian/pool/a.deb" "/r/h/debian/pool/a.deb" false]).
  { repeat constructor; vm_compute; reflexivity. }
  split; [exact H |].
  destruct (pool_skips_present_files Scenario.env_up _ _ H)
    as (w' & H1 & H2 & _ & H4 & H5 & H6 & _).
  exists w'. split; [exact H1 |]. split; [exact H2 |].
  split; [apply H5; discriminate |]. split; [exact H4 | exact H6].
Defined.
End Instances.
